(** * Astronode MicroPython driver: frame codec, CRC-16 and transactions

    Shallow embedding of [modem_astronode.py] (class [ASTRONODE]).

    - Python [bytes] objects are [list byte]; Python [str] objects are
      [string] (MicroPython stores a [str] as its UTF-8 bytes, so
      [bytes.decode()] is a validity check followed by a change of type).
    - Python [int] is [Z]; the 16-bit CRC accumulator is a [Z] with the
      mask [& 0xFFFF] written out.
    - A call either returns a value or raises: [result A].
    - The serial port and the clock are an explicit environment: what
      [UART.write] returns and the sequence of polls that happen before
      the receive deadline expires. [print] calls are not modelled. *)

From Stdlib Require Import ZArith List String Ascii Bool Lia.
From Stdlib.Strings Require Import Byte.
Import ListNotations.
Local Open Scope Z_scope.

(** ** Exceptions and the error monad *)

Inductive exn : Type :=
| ValueError
| IndexError
| TypeError
| AttributeError
| UnicodeError.

Inductive result (A : Type) : Type :=
| Ret (a : A)
| Raise (e : exn).

Arguments Ret {A} a.
Arguments Raise {A} e.

Definition bind {A B : Type} (c : result A) (k : A -> result B) : result B :=
  match c with
  | Ret a => k a
  | Raise e => Raise e
  end.

Notation "x <- c ;; k" := (bind c (fun x => k))
  (at level 61, c at next level, right associativity).

(** ** Module constants *)

Definition CFG_WR : Z := 0x05.
Definition CFG_SR : Z := 0x10.
Definition CFG_FR : Z := 0x11.
Definition CFG_RR : Z := 0x15.
Definition RTC_RR : Z := 0x17.
Definition MGI_RR : Z := 0x19.
Definition MSN_RR : Z := 0x1A.
Definition MPN_RR : Z := 0x1B.
Definition PLD_ER : Z := 0x25.
Definition PLD_DR : Z := 0x26.
Definition PLD_FR : Z := 0x27.

Definition CFG_WA : Z := 0x85.
Definition CFG_SA : Z := 0x90.
Definition CFG_FA : Z := 0x91.
Definition CFG_RA : Z := 0x95.
Definition RTC_RA : Z := 0x97.
Definition MGI_RA : Z := 0x99.
Definition MSN_RA : Z := 0x9A.
Definition MPN_RA : Z := 0x9B.
Definition PLD_EA : Z := 0xA5.
Definition PLD_DA : Z := 0xA6.
Definition PLD_FA : Z := 0xA7.
Definition ERR_RA : Z := 0xFF.

(** [STX = b'\x02'] and [ETX = b'\x03'] *)
Definition STX : list byte := [x02].
Definition ETX : list byte := [x03].

Definition ASN_MAX_MSG_SIZE : Z := 160.

Definition ANS_STATUS_NONE : Z := 0x0.
Definition ANS_STATUS_CRC_NOT_VALID : Z := 0x0001.
Definition ANS_STATUS_OPCODE_NOT_VALID : Z := 0x0121.
Definition ANS_STATUS_SUCCESS : Z := 0x7000.
Definition ANS_STATUS_TIMEOUT : Z := 0x7001.
Definition ANS_STATUS_HW_ERR : Z := 0x7002.
Definition ANS_STATUS_DATA_SENT : Z := 0x7003.
Definition ANS_STATUS_DATA_RECEIVED : Z := 0x7004.
Definition ANS_STATUS_PAYLOAD_TOO_LONG : Z := 0x7005.
Definition ANS_STATUS_PAYLOAD_ID_CHECK_FAILED : Z := 0x7006.

Definition ASTROCAST_REF_UNIX_TIME : Z := 1514764800.

(** ** Bytes, strings and the built-ins the driver calls *)

Definition byte_to_Z (b : byte) : Z := Z.of_N (Byte.to_N b).

Definition byte_of_Z (z : Z) : byte :=
  match Byte.of_N (Z.to_N z) with
  | Some b => b
  | None => x00
  end.

(** [len(x)] *)
Definition len {A : Type} (l : list A) : Z := Z.of_nat (List.length l).

(** [x[i]] on a sequence: negative indices count from the end, an index
    outside the sequence raises [IndexError]. *)
Definition getitem {A : Type} (l : list A) (i : Z) : result A :=
  let j := if i <? 0 then len l + i else i in
  if j <? 0 then Raise IndexError
  else match nth_error l (Z.to_nat j) with
       | Some a => Ret a
       | None => Raise IndexError
       end.

(** [x[lo:hi]]: both bounds are clamped to the sequence, never raises. *)
Definition clamp_index (n i : Z) : Z :=
  if i <? 0 then Z.max 0 (n + i) else Z.min i n.

Definition slice {A : Type} (l : list A) (lo hi : Z) : list A :=
  let lo' := clamp_index (len l) lo in
  let hi' := clamp_index (len l) hi in
  firstn (Z.to_nat (hi' - lo')) (skipn (Z.to_nat lo') l).

(** [x[lo:]] *)
Definition slice_from {A : Type} (l : list A) (lo : Z) : list A :=
  skipn (Z.to_nat (clamp_index (len l) lo)) l.

(** [str.encode()] *)
Definition str_encode (s : string) : list byte := list_byte_of_string s.

(** The UTF-8 well-formedness scan MicroPython runs before it turns a
    [bytes] object into a [str]. *)
Fixpoint utf8_check (need : Z) (p : list byte) : bool :=
  match p with
  | [] => need =? 0
  | c :: p' =>
      let c := byte_to_Z c in
      if negb (need =? 0) then
        if (Z.land c 0xC0 =? 0x80) then utf8_check (need - 1) p' else false
      else if 0xC0 <=? c then
        if 0xF8 <=? c then false
        else utf8_check (Z.land (Z.shiftr 0xE5 (Z.land (Z.shiftr c 3) 0x6)) 3) p'
      else if 0x80 <=? c then false
      else utf8_check 0 p'
  end.

(** [bytes.decode()] *)
Definition bytes_decode (b : list byte) : result string :=
  if utf8_check 0 b then Ret (string_of_list_byte b) else Raise UnicodeError.

(** Value of a hexadecimal digit character, either case. *)
Definition xdigit_value (c : byte) : option Z :=
  let n := byte_to_Z c in
  if (0x30 <=? n) && (n <=? 0x39) then Some (n - 0x30)
  else if (0x41 <=? n) && (n <=? 0x46) then Some (n - 0x41 + 10)
  else if (0x61 <=? n) && (n <=? 0x66) then Some (n - 0x61 + 10)
  else None.

(** [ubinascii.unhexlify]: an odd length or a character that is not a
    hexadecimal digit raises [ValueError]. *)
Fixpoint unhexlify (s : list byte) : result (list byte) :=
  match s with
  | [] => Ret []
  | [_] => Raise ValueError
  | hi :: lo :: rest =>
      match xdigit_value hi, xdigit_value lo with
      | Some h, Some l =>
          r <- unhexlify rest ;;
          Ret (byte_of_Z (h * 16 + l) :: r)
      | _, _ => Raise ValueError
      end
  end.

Definition nibble_lower (n : Z) : byte :=
  if n <? 10 then byte_of_Z (0x30 + n) else byte_of_Z (0x61 + n - 10).

Definition nibble_upper (n : Z) : byte :=
  if n <? 10 then byte_of_Z (0x30 + n) else byte_of_Z (0x41 + n - 10).

(** [ubinascii.hexlify]: two lower-case digits per byte. *)
Fixpoint hexlify (b : list byte) : list byte :=
  match b with
  | [] => []
  | c :: rest =>
      nibble_lower (byte_to_Z c / 16) :: nibble_lower (byte_to_Z c mod 16)
        :: hexlify rest
  end.

(** [bytes.upper()] *)
Definition byte_upper (c : byte) : byte :=
  let n := byte_to_Z c in
  if (0x61 <=? n) && (n <=? 0x7A) then byte_of_Z (n - 0x20) else c.

Definition bytes_upper (b : list byte) : list byte := map byte_upper b.

(** Upper-case hexadecimal digits of a non-negative integer, most
    significant first. *)
Fixpoint hex_digits (fuel : nat) (n : Z) (acc : list byte) : list byte :=
  match fuel with
  | O => acc
  | S f =>
      let acc' := nibble_upper (n mod 16) :: acc in
      if n / 16 =? 0 then acc' else hex_digits f (n / 16) acc'
  end.

Definition hex_upper (n : Z) : list byte :=
  hex_digits (S (Z.to_nat (Z.log2 n))) n [].

Definition zero_pad (width : nat) (digits : list byte) : list byte :=
  repeat x30 (width - List.length digits) ++ digits.

(** ['{:04X}'.format(n)]: the sign counts in the width. *)
Definition format_04X (n : Z) : string :=
  if n <? 0 then string_of_list_byte (x2d :: zero_pad 3 (hex_upper (- n)))
  else string_of_list_byte (zero_pad 4 (hex_upper n)).

(** ["%0.2X" % n]: the precision is a minimum number of digits. *)
Definition format_02X (n : Z) : string :=
  if n <? 0 then string_of_list_byte (x2d :: zero_pad 2 (hex_upper (- n)))
  else string_of_list_byte (zero_pad 2 (hex_upper n)).

(** ** Checksum engine *)

Definition table : list Z := [
  0x0000; 0x1021; 0x2042; 0x3063; 0x4084; 0x50A5; 0x60C6; 0x70E7; 0x8108; 0x9129; 0xA14A; 0xB16B; 0xC18C; 0xD1AD; 0xE1CE; 0xF1EF;
  0x1231; 0x0210; 0x3273; 0x2252; 0x52B5; 0x4294; 0x72F7; 0x62D6; 0x9339; 0x8318; 0xB37B; 0xA35A; 0xD3BD; 0xC39C; 0xF3FF; 0xE3DE;
  0x2462; 0x3443; 0x0420; 0x1401; 0x64E6; 0x74C7; 0x44A4; 0x5485; 0xA56A; 0xB54B; 0x8528; 0x9509; 0xE5EE; 0xF5CF; 0xC5AC; 0xD58D;
  0x3653; 0x2672; 0x1611; 0x0630; 0x76D7; 0x66F6; 0x5695; 0x46B4; 0xB75B; 0xA77A; 0x9719; 0x8738; 0xF7DF; 0xE7FE; 0xD79D; 0xC7BC;
  0x48C4; 0x58E5; 0x6886; 0x78A7; 0x0840; 0x1861; 0x2802; 0x3823; 0xC9CC; 0xD9ED; 0xE98E; 0xF9AF; 0x8948; 0x9969; 0xA90A; 0xB92B;
  0x5AF5; 0x4AD4; 0x7AB7; 0x6A96; 0x1A71; 0x0A50; 0x3A33; 0x2A12; 0xDBFD; 0xCBDC; 0xFBBF; 0xEB9E; 0x9B79; 0x8B58; 0xBB3B; 0xAB1A;
  0x6CA6; 0x7C87; 0x4CE4; 0x5CC5; 0x2C22; 0x3C03; 0x0C60; 0x1C41; 0xEDAE; 0xFD8F; 0xCDEC; 0xDDCD; 0xAD2A; 0xBD0B; 0x8D68; 0x9D49;
  0x7E97; 0x6EB6; 0x5ED5; 0x4EF4; 0x3E13; 0x2E32; 0x1E51; 0x0E70; 0xFF9F; 0xEFBE; 0xDFDD; 0xCFFC; 0xBF1B; 0xAF3A; 0x9F59; 0x8F78;
  0x9188; 0x81A9; 0xB1CA; 0xA1EB; 0xD10C; 0xC12D; 0xF14E; 0xE16F; 0x1080; 0x00A1; 0x30C2; 0x20E3; 0x5004; 0x4025; 0x7046; 0x6067;
  0x83B9; 0x9398; 0xA3FB; 0xB3DA; 0xC33D; 0xD31C; 0xE37F; 0xF35E; 0x02B1; 0x1290; 0x22F3; 0x32D2; 0x4235; 0x5214; 0x6277; 0x7256;
  0xB5EA; 0xA5CB; 0x95A8; 0x8589; 0xF56E; 0xE54F; 0xD52C; 0xC50D; 0x34E2; 0x24C3; 0x14A0; 0x0481; 0x7466; 0x6447; 0x5424; 0x4405;
  0xA7DB; 0xB7FA; 0x8799; 0x97B8; 0xE75F; 0xF77E; 0xC71D; 0xD73C; 0x26D3; 0x36F2; 0x0691; 0x16B0; 0x6657; 0x7676; 0x4615; 0x5634;
  0xD94C; 0xC96D; 0xF90E; 0xE92F; 0x99C8; 0x89E9; 0xB98A; 0xA9AB; 0x5844; 0x4865; 0x7806; 0x6827; 0x18C0; 0x08E1; 0x3882; 0x28A3;
  0xCB7D; 0xDB5C; 0xEB3F; 0xFB1E; 0x8BF9; 0x9BD8; 0xABBB; 0xBB9A; 0x4A75; 0x5A54; 0x6A37; 0x7A16; 0x0AF1; 0x1AD0; 0x2AB3; 0x3A92;
  0xFD2E; 0xED0F; 0xDD6C; 0xCD4D; 0xBDAA; 0xAD8B; 0x9DE8; 0x8DC9; 0x7C26; 0x6C07; 0x5C64; 0x4C45; 0x3CA2; 0x2C83; 0x1CE0; 0x0CC1;
  0xEF1F; 0xFF3E; 0xCF5D; 0xDF7C; 0xAF9B; 0xBFBA; 0x8FD9; 0x9FF8; 0x6E17; 0x7E36; 0x4E55; 0x5E74; 0x2E93; 0x3EB2; 0x0ED1; 0x1EF0
].

(** One iteration of the loop body of [_crc16]:
    [crc = (crc << 8) ^ table[(crc >> 8) ^ byte]; crc &= 0xFFFF].
    The table index stays below 256 because [crc] stays below 65536
    (lemma [crc16_index_in_table]), so the lookup cannot raise. *)
Definition crc16_step (crc : Z) (b : byte) : Z :=
  let crc := Z.lxor (Z.shiftl crc 8)
                    (nth (Z.to_nat (Z.lxor (Z.shiftr crc 8) (byte_to_Z b))) table 0) in
  Z.land crc 0xFFFF.

Definition _crc16 (data : list byte) : Z :=
  fold_left crc16_step data 0xFFFF.

(** [_generate_crc(data)] with [data] a [str] of hexadecimal digits. *)
Definition _generate_crc (data : string) : result string :=
  raw <- unhexlify (str_encode data) ;;
  let crc_tmp := list_ascii_of_string (format_04X (_crc16 raw)) in
  c2 <- getitem crc_tmp 2 ;;
  c3 <- getitem crc_tmp 3 ;;
  c0 <- getitem crc_tmp 0 ;;
  c1 <- getitem crc_tmp 1 ;;
  Ret (string_of_list_ascii [c2; c3; c0; c1]).

(** [text_to_hex(text)] *)
Definition text_to_hex (text : list byte) : result string :=
  bytes_decode (hexlify text).

(** ** Serial port, clock and random source

    [uart_write] is what [UART.write] returns for a buffer: the number of
    bytes written, or [None] when the write timed out. [uart_polls] is
    the sequence of polls the receive loop makes before its deadline
    expires: [Some b] when [any()] was true and [read(1)] returned [b],
    [None] when nothing was pending and the loop slept. [random_id] is
    the outcome of
    ['{:04s}'.format(hex(random.randint(0, 65535))[2:6])]: a [str] where
    the platform zero-pads strings, [ValueError] where it rejects that
    format for a [str]. *)
Record env : Type := {
  uart_write : list byte -> option Z;
  uart_polls : list (option byte);
  random_id : result string
}.

(** Values callers hand over as [data] of [encode_send_request]. *)
Inductive pyarg : Type :=
| AStr (s : string)
| AList (l : list Z).

(** Values callers hand over as [id] of [enqueue_payload]. *)
Inductive pyid : Type :=
| IdStr (s : string)
| IdInt (n : Z).

(** [msg += data] with [msg] a [str]. *)
Definition str_iadd (msg : string) (data : pyarg) : result string :=
  match data with
  | AStr s => Ret (msg ++ s)%string
  | AList _ => Raise TypeError
  end.

(** ** Frame codec *)

(** The bytes [encode_send_request] hands to [UART.write]. *)
Definition request_frame (opcode : Z) (data : pyarg) : result (list byte) :=
  msg <- str_iadd (format_02X opcode) data ;;
  crc <- _generate_crc msg ;;
  let msg := (msg ++ crc)%string in
  let msg := hexlify (str_encode msg) in
  stx <- text_to_hex STX ;;
  m <- bytes_decode msg ;;
  let msg := (stx ++ m)%string in
  etx <- text_to_hex ETX ;;
  let msg := (msg ++ etx)%string in
  msg <- unhexlify (str_encode msg) ;;
  Ret (bytes_upper msg).

Definition encode_send_request (e : env) (opcode : Z) (data : pyarg) : result Z :=
  msg <- request_frame opcode data ;;
  match uart_write e msg with
  | Some _ => Ret ANS_STATUS_DATA_SENT
  | None => Ret ANS_STATUS_HW_ERR
  end.

Definition bytes_eqb (a b : list byte) : bool :=
  if list_eq_dec Byte.byte_eq_dec a b then true else false.

(** The polling loop of [receive_decode_answer]; the end of the poll
    sequence is the iteration at which the deadline has passed. *)
Fixpoint capture (polls : list (option byte)) (do_capture : bool)
    (message_buffer : list byte) : list byte :=
  match polls with
  | [] => message_buffer
  | None :: polls' => capture polls' do_capture message_buffer
  | Some c :: polls' =>
      let b := [c] in
      let do_capture := if bytes_eqb b STX then true else do_capture in
      let message_buffer :=
        if do_capture then message_buffer ++ b else message_buffer in
      if bytes_eqb b ETX then message_buffer
      else capture polls' do_capture message_buffer
  end.

(** The part of [receive_decode_answer] after the loop. *)
Definition decode_answer (message_buffer : list byte)
    : result (Z * option Z * option (list byte)) :=
  if 6 <? len message_buffer then
    message <- bytes_decode (slice message_buffer 1 (-5)) ;;
    cmd_crc_check <- bytes_decode (slice message_buffer (-5) (-1)) ;;
    com_buf_astronode <- unhexlify (str_encode message) ;;
    cmd_crc <- _generate_crc message ;;
    if String.eqb cmd_crc cmd_crc_check then
      c0 <- getitem com_buf_astronode 0 ;;
      if byte_to_Z c0 =? ERR_RA then
        c2 <- getitem com_buf_astronode 2 ;;
        c1 <- getitem com_buf_astronode 1 ;;
        Ret (Z.shiftl (byte_to_Z c2) 8 + byte_to_Z c1, None, None)
      else
        let data := slice_from com_buf_astronode 1 in
        opcode <- getitem com_buf_astronode 0 ;;
        Ret (ANS_STATUS_DATA_RECEIVED, Some (byte_to_Z opcode), Some data)
    else Ret (ANS_STATUS_CRC_NOT_VALID, None, None)
  else Ret (ANS_STATUS_TIMEOUT, None, None).

Definition receive_decode_answer (polls : list (option byte))
    : result (Z * option Z * option (list byte)) :=
  decode_answer (capture polls false []).

(** ** Operations *)

(** [opcode == K] where [opcode] may be [None]. *)
Definition opcode_is (opcode : option Z) (k : Z) : bool :=
  match opcode with
  | Some o => o =? k
  | None => false
  end.

(** [data[i]] where [data] may be [None]. *)
Definition subscript (data : option (list byte)) (i : Z) : result Z :=
  match data with
  | Some d => b <- getitem d i ;; Ret (byte_to_Z b)
  | None => Raise TypeError
  end.

(** [x.decode()] where [x] may be [None]. *)
Definition attr_decode (x : option (list byte)) : result string :=
  match x with
  | Some b => bytes_decode b
  | None => Raise AttributeError
  end.

Record ASTRONODE_CONFIG : Type := {
  product_id : Z;
  hardware_rev : Z;
  firmware_maj_ver : Z;
  firmware_min_ver : Z;
  firmware_rev : Z;
  with_pl_ack : Z;
  with_geoloc : Z;
  with_ephemeris : Z;
  with_deep_sleep_en : Z;
  with_msg_ack_pin_en : Z;
  with_msg_reset_pin_en : Z
}.

Definition set_bit (flag : bool) (w : Z) (k : Z) : Z :=
  if flag then Z.lor w (Z.shiftl 1 k) else w.

(** [configuration_write]: the argument list reaches [msg += data] in
    [encode_send_request], and the receive call passes an argument the
    method does not take. *)
Definition configuration_write (e : env)
    (with_pl_ack with_geoloc with_ephemeris with_deep_sleep
     with_ack_event_pin_mask with_reset_event_pin_mask : bool) : result Z :=
  let p0 := set_bit with_deep_sleep
              (set_bit with_ephemeris
                 (set_bit with_geoloc (set_bit with_pl_ack 0 0) 1) 2) 3 in
  let p2 := set_bit with_reset_event_pin_mask
              (set_bit with_ack_event_pin_mask 0 0) 1 in
  let param_w := [p0; 0; p2] in
  let reg := CFG_WR in
  ret_val <- encode_send_request e reg (AList param_w) ;;
  if ret_val =? ANS_STATUS_DATA_SENT then Raise TypeError
  else Ret ret_val.

Definition configuration_read (e : env) : result (Z * option ASTRONODE_CONFIG) :=
  let reg := CFG_RR in
  ret_val <- encode_send_request e reg (AStr "") ;;
  if ret_val =? ANS_STATUS_DATA_SENT then
    r <- receive_decode_answer (uart_polls e) ;;
    let '(ret_val, opcode, data) := r in
    if (ret_val =? ANS_STATUS_DATA_RECEIVED) && opcode_is opcode CFG_RA then
      d0 <- subscript data 0 ;;
      d1 <- subscript data 1 ;;
      d2 <- subscript data 2 ;;
      d3 <- subscript data 3 ;;
      d4 <- subscript data 4 ;;
      f0 <- subscript data 5 ;;
      f1 <- subscript data 5 ;;
      f2 <- subscript data 5 ;;
      f3 <- subscript data 5 ;;
      g0 <- subscript data 7 ;;
      g1 <- subscript data 7 ;;
      Ret (ANS_STATUS_SUCCESS,
           Some {| product_id := d0;
                   hardware_rev := d1;
                   firmware_maj_ver := d2;
                   firmware_min_ver := d3;
                   firmware_rev := d4;
                   with_pl_ack := Z.land f0 (Z.shiftl 1 0);
                   with_geoloc := Z.land f1 (Z.shiftl 1 1);
                   with_ephemeris := Z.land f2 (Z.shiftl 1 2);
                   with_deep_sleep_en := Z.land f3 (Z.shiftl 1 3);
                   with_msg_ack_pin_en := Z.land g0 (Z.shiftl 1 0);
                   with_msg_reset_pin_en := Z.land g1 (Z.shiftl 1 1) |})
    else Ret (ret_val, None)
  else Ret (ret_val, None).

Definition configuration_save (e : env) : result Z :=
  let reg := CFG_SR in
  ret_val <- encode_send_request e reg (AStr "") ;;
  if ret_val =? ANS_STATUS_DATA_SENT then
    r <- receive_decode_answer (uart_polls e) ;;
    let '(ret_val, opcode, data) := r in
    if (ret_val =? ANS_STATUS_DATA_RECEIVED) && opcode_is opcode CFG_SA then
      Ret ANS_STATUS_SUCCESS
    else Ret ret_val
  else Ret ret_val.

Definition factory_reset (e : env) : result Z :=
  let reg := CFG_FR in
  ret_val <- encode_send_request e reg (AStr "") ;;
  if ret_val =? ANS_STATUS_DATA_SENT then
    r <- receive_decode_answer (uart_polls e) ;;
    let '(ret_val, opcode, data) := r in
    if (ret_val =? ANS_STATUS_DATA_RECEIVED) && (reg =? CFG_FA) then
      Ret ANS_STATUS_SUCCESS
    else Ret ret_val
  else Ret ret_val.

(** [guid_read], [serial_number_read] and [product_number_read] end in
    [return (ret_val, x.decode())] with [x] still [None] unless the
    expected answer arrived. *)
Definition guid_read (e : env) : result (Z * string) :=
  let reg := MGI_RR in
  let guid : option (list byte) := None in
  ret_val <- encode_send_request e reg (AStr "") ;;
  rv <- (if ret_val =? ANS_STATUS_DATA_SENT then
           r <- receive_decode_answer (uart_polls e) ;;
           let '(ret_val, opcode, data) := r in
           if (ret_val =? ANS_STATUS_DATA_RECEIVED) && opcode_is opcode MGI_RA then
             let guid := data in
             Ret (ANS_STATUS_SUCCESS, guid)
           else Ret (ret_val, guid)
         else Ret (ret_val, guid)) ;;
  let '(ret_val, guid) := rv in
  text <- attr_decode guid ;;
  Ret (ret_val, text).

Definition serial_number_read (e : env) : result (Z * string) :=
  let reg := MSN_RR in
  let sn : option (list byte) := None in
  ret_val <- encode_send_request e reg (AStr "") ;;
  rv <- (if ret_val =? ANS_STATUS_DATA_SENT then
           r <- receive_decode_answer (uart_polls e) ;;
           let '(ret_val, opcode, data) := r in
           if (ret_val =? ANS_STATUS_DATA_RECEIVED) && opcode_is opcode MSN_RA then
             let sn := data in
             Ret (ANS_STATUS_SUCCESS, sn)
           else Ret (ret_val, sn)
         else Ret (ret_val, sn)) ;;
  let '(ret_val, sn) := rv in
  text <- attr_decode sn ;;
  Ret (ret_val, text).

Definition product_number_read (e : env) : result (Z * string) :=
  let reg := MPN_RR in
  let pn : option (list byte) := None in
  ret_val <- encode_send_request e reg (AStr "") ;;
  rv <- (if ret_val =? ANS_STATUS_DATA_SENT then
           r <- receive_decode_answer (uart_polls e) ;;
           let '(ret_val, opcode, data) := r in
           if (ret_val =? ANS_STATUS_DATA_RECEIVED) && opcode_is opcode MPN_RA then
             let pn := data in
             Ret (ANS_STATUS_SUCCESS, pn)
           else Ret (ret_val, pn)
         else Ret (ret_val, pn)) ;;
  let '(ret_val, pn) := rv in
  text <- attr_decode pn ;;
  Ret (ret_val, text).

Definition rtc_read (e : env) : result (Z * option Z) :=
  let reg := RTC_RR in
  ret_val <- encode_send_request e reg (AStr "") ;;
  if ret_val =? ANS_STATUS_DATA_SENT then
    r <- receive_decode_answer (uart_polls e) ;;
    let '(ret_val, opcode, data) := r in
    if (ret_val =? ANS_STATUS_DATA_RECEIVED) && opcode_is opcode RTC_RA then
      d3 <- subscript data 3 ;;
      d2 <- subscript data 2 ;;
      d1 <- subscript data 1 ;;
      d0 <- subscript data 0 ;;
      let time_tmp :=
        Z.shiftl d3 24 + Z.shiftl d2 16 + Z.shiftl d1 8 + Z.shiftl d0 0 in
      Ret (ANS_STATUS_SUCCESS, Some (time_tmp + ASTROCAST_REF_UNIX_TIME))
    else Ret (ret_val, None)
  else Ret (ret_val, None).

(** [generate_message(payload, include_message_id, id)]: [m = id] followed
    by [m += text_to_hex(payload)] needs [id] to be a [str]. *)
Definition generate_message (e : env) (payload : list byte)
    (include_message_id : bool) (id : option pyid)
    : result (option pyid * string) :=
  if include_message_id then
    id <- match id with
          | Some i => Ret i
          | None => s <- random_id e ;; Ret (IdStr s)
          end ;;
    h <- text_to_hex payload ;;
    match id with
    | IdStr m => Ret (Some id, (m ++ h)%string)
    | IdInt _ => Raise TypeError
    end
  else
    h <- text_to_hex payload ;;
    Ret (id, h).

(** [id == id_check] with [id_check] an [int]: a [str] never equals an
    [int]. *)
Definition id_equals_int (id : option pyid) (id_check : Z) : bool :=
  match id with
  | Some (IdInt n) => n =? id_check
  | Some (IdStr _) => false
  | None => false
  end.

Definition enqueue_payload (e : env) (data : list byte) (id : option pyid)
    : result (Z * option pyid) :=
  if len data <=? ASN_MAX_MSG_SIZE then
    gm <- generate_message e data true id ;;
    let '(message_id, message) := gm in
    let id := message_id in
    let reg := PLD_ER in
    ret_val <- encode_send_request e reg (AStr message) ;;
    if ret_val =? ANS_STATUS_DATA_SENT then
      r <- receive_decode_answer (uart_polls e) ;;
      let '(ret_val, opcode, data) := r in
      if (ret_val =? ANS_STATUS_DATA_RECEIVED) && opcode_is opcode PLD_EA then
        d1 <- subscript data 1 ;;
        d0 <- subscript data 0 ;;
        let id_check := Z.shiftl d1 8 + d0 in
        if id_equals_int id id_check then Ret (ANS_STATUS_SUCCESS, id)
        else Ret (ANS_STATUS_PAYLOAD_ID_CHECK_FAILED, id)
      else Ret (ret_val, id)
    else Ret (ret_val, id)
  else Ret (ANS_STATUS_PAYLOAD_TOO_LONG, id).

Definition dequeue_payload (e : env) : result (Z * option Z) :=
  let reg := PLD_DR in
  ret_val <- encode_send_request e reg (AStr "") ;;
  if ret_val =? ANS_STATUS_DATA_SENT then
    r <- receive_decode_answer (uart_polls e) ;;
    let '(ret_val, opcode, data) := r in
    if (ret_val =? ANS_STATUS_DATA_RECEIVED) && opcode_is opcode PLD_DA then
      d1 <- subscript data 1 ;;
      d0 <- subscript data 0 ;;
      Ret (ANS_STATUS_SUCCESS, Some (Z.shiftl d1 8 + d0))
    else Ret (ret_val, None)
  else Ret (ret_val, None).

Definition clear_free_payloads (e : env) : result Z :=
  let reg := PLD_FR in
  ret_val <- encode_send_request e reg (AStr "") ;;
  if ret_val =? ANS_STATUS_DATA_SENT then
    r <- receive_decode_answer (uart_polls e) ;;
    let '(ret_val, opcode, data) := r in
    if (ret_val =? ANS_STATUS_DATA_RECEIVED) && opcode_is opcode PLD_FA then
      Ret ANS_STATUS_SUCCESS
    else Ret ret_val
  else Ret ret_val.

(** ** Concrete environments used in examples *)

(** A modem that accepts every write in full and answers with the frame
    carrying [opcode] and the hexadecimal arguments [args]. *)
Definition frame_or_empty (opcode : Z) (args : string) : list byte :=
  match request_frame opcode (AStr args) with
  | Ret f => f
  | Raise _ => []
  end.

Definition answering (opcode : Z) (args : string) : env :=
  {| uart_write := fun msg => Some (len msg);
     uart_polls := map Some (frame_or_empty opcode args);
     random_id := Ret "0000"%string |}.

(** A port on which every write fails. *)
Definition dead_port : env :=
  {| uart_write := fun _ => None;
     uart_polls := [];
     random_id := Ret "0000"%string |}.

(** A port that takes every write in full and never delivers a byte. *)
Definition silent_modem : env :=
  {| uart_write := fun msg => Some (len msg);
     uart_polls := [None; None; None];
     random_id := Ret "0000"%string |}.

(** A port that reports three bytes written whatever the buffer is. *)
Definition short_writer : env :=
  {| uart_write := fun _ => Some 3;
     uart_polls := [];
     random_id := Ret "0000"%string |}.

(** ** Predicates used in the statements *)

(** The captured buffer is an error answer carrying the 16-bit [code]:
    its body decodes to 0xFF followed by the code, low byte first. *)
Definition error_frame (message_buffer : list byte) (code : Z) : Prop :=
  exists message c1 c2 body,
    bytes_decode (slice message_buffer 1 (-5)) = Ret message
    /\ unhexlify (str_encode message) = Ret (xff :: c1 :: c2 :: body)
    /\ code = Z.shiftl (byte_to_Z c2) 8 + byte_to_Z c1.

Definition is_xdigit (c : byte) : bool :=
  match xdigit_value c with
  | Some _ => true
  | None => false
  end.

Definition is_upper_xdigit (c : byte) : bool :=
  let n := byte_to_Z c in
  ((0x30 <=? n) && (n <=? 0x39)) || ((0x41 <=? n) && (n <=? 0x46)).

Definition is_ascii (c : byte) : bool := byte_to_Z c <? 0x80.

(** The four characters [_generate_crc] returns for the checksum [crc]:
    the two digits of the low byte, then the two digits of the high
    byte. *)
Definition crc_field (crc : Z) : list byte :=
  [nibble_upper (crc / 16 mod 16); nibble_upper (crc mod 16);
   nibble_upper (crc / 4096); nibble_upper (crc / 256 mod 16)].

Definition is_byte (p : option byte) : bool :=
  match p with
  | Some _ => true
  | None => false
  end.

Definition not_etx (c : byte) : bool := negb (Byte.eqb c x03).

(** The port takes every buffer ([UART.write] never returns [None]). *)
Definition accepts_writes (e : env) : Prop :=
  forall frame, uart_write e frame <> None.

(** The port takes no buffer ([UART.write] always returns [None]). *)
Definition rejects_writes (e : env) : Prop :=
  forall frame, uart_write e frame = None.

Fixpoint distinct (l : list Z) : bool :=
  match l with
  | [] => true
  | x :: t => negb (existsb (Z.eqb x) t) && distinct t
  end.

(** ** Basic facts about bytes and the built-ins *)

Lemma byte_to_Z_range (b : byte) : 0 <= byte_to_Z b < 256.
Proof.
  unfold byte_to_Z. pose proof (Byte.to_N_bounded b). lia.
Qed.

Lemma byte_of_to_Z (b : byte) : byte_of_Z (byte_to_Z b) = b.
Proof.
  unfold byte_of_Z, byte_to_Z. rewrite N2Z.id, Byte.of_to_N. reflexivity.
Qed.

Lemma byte_to_Z_inj (a b : byte) : byte_to_Z a = byte_to_Z b -> a = b.
Proof.
  intros H. rewrite <- (byte_of_to_Z a), <- (byte_of_to_Z b), H. reflexivity.
Qed.

Lemma pair_ind {A : Type} (P : list A -> Prop) :
  P [] -> (forall a, P [a]) -> (forall a b l, P l -> P (a :: b :: l)) ->
  forall l, P l.
Proof.
  intros H0 H1 H2 l.
  assert (H : P l /\ forall a, P (a :: l)).
  { induction l as [|x l [IH1 IH2]]; split; auto. }
  apply H.
Qed.

Lemma bind_ret_inv {A B : Type} (c : result A) (k : A -> result B) (b : B) :
  bind c k = Ret b -> exists a, c = Ret a /\ k a = Ret b.
Proof.
  destruct c as [a|e]; simpl; intros H; [eauto | discriminate].
Qed.

Lemma len_app {A : Type} (l1 l2 : list A) : len (l1 ++ l2) = len l1 + len l2.
Proof. unfold len. rewrite List.length_app. lia. Qed.

Lemma len_cons {A : Type} (a : A) (l : list A) : len (a :: l) = 1 + len l.
Proof. unfold len. cbn [List.length]. lia. Qed.

Lemma len_nonneg {A : Type} (l : list A) : 0 <= len l.
Proof. unfold len. lia. Qed.

(** ** Facts about the checksum *)

Lemma crc16_step_range (crc : Z) (b : byte) : 0 <= crc16_step crc b < 65536.
Proof.
  unfold crc16_step.
  change 0xFFFF with (Z.ones 16). rewrite Z.land_ones by lia.
  apply Z.mod_pos_bound. reflexivity.
Qed.

Lemma crc16_snoc (data : list byte) (b : byte) :
  _crc16 (data ++ [b]) = crc16_step (_crc16 data) b.
Proof. unfold _crc16. rewrite fold_left_app. reflexivity. Qed.

Lemma crc16_range (data : list byte) : 0 <= _crc16 data < 65536.
Proof.
  induction data as [|b data _] using rev_ind.
  - unfold _crc16; simpl; lia.
  - rewrite crc16_snoc. apply crc16_step_range.
Qed.

Lemma lxor_below_256 (a b : Z) :
  0 <= a < 256 -> 0 <= b < 256 -> 0 <= Z.lxor a b < 256.
Proof.
  intros Ha Hb.
  assert (Hn : 0 <= Z.lxor a b) by (apply Z.lxor_nonneg; lia).
  split; [exact Hn|].
  destruct (Z.eq_dec (Z.lxor a b) 0) as [E|E]; [lia|].
  change 256 with (2 ^ 8). apply Z.log2_lt_pow2; [lia|].
  pose proof (Z.log2_lxor a b ltac:(lia) ltac:(lia)) as Hl.
  assert (Z.log2 a < 8).
  { destruct (Z.eq_dec a 0) as [->|]; [simpl; lia|].
    apply Z.log2_lt_pow2; [lia | change (2 ^ 8) with 256; lia]. }
  assert (Z.log2 b < 8).
  { destruct (Z.eq_dec b 0) as [->|]; [simpl; lia|].
    apply Z.log2_lt_pow2; [lia | change (2 ^ 8) with 256; lia]. }
  lia.
Qed.

Lemma crc16_index_in_table (data : list byte) (b : byte) :
  (Z.to_nat (Z.lxor (Z.shiftr (_crc16 data) 8) (byte_to_Z b)) < List.length table)%nat.
Proof.
  pose proof (crc16_range data) as Hc. pose proof (byte_to_Z_range b) as Hb.
  assert (Hs : 0 <= Z.shiftr (_crc16 data) 8 < 256).
  { rewrite Z.shiftr_div_pow2 by lia. change (2 ^ 8) with 256.
    split; [apply Z.div_pos; lia | apply Z.div_lt_upper_bound; lia]. }
  pose proof (lxor_below_256 _ _ Hs Hb).
  change (List.length table) with 256%nat. lia.
Qed.

(** C4. [_crc16] is a function of its input alone; it starts from 0xFFFF
    (so the empty input gives 0xFFFF), every step is the table update
    masked to 16 bits (so the value always fits 16 bits and the table
    index is always inside the 256-entry table), and the bytes of
    "123456789" give 0x29B1. *)
Theorem crc16_ccitt_reference :
  _crc16 [] = 0xFFFF
  /\ _crc16 (str_encode "123456789") = 0x29B1
  /\ (forall data b,
        _crc16 (data ++ [b]) =
        Z.land (Z.lxor (Z.shiftl (_crc16 data) 8)
                  (nth (Z.to_nat (Z.lxor (Z.shiftr (_crc16 data) 8) (byte_to_Z b)))
                       table 0))
               0xFFFF)
  /\ (forall data, 0 <= _crc16 data <= 0xFFFF)
  /\ (forall data b,
        (Z.to_nat (Z.lxor (Z.shiftr (_crc16 data) 8) (byte_to_Z b))
         < List.length table)%nat).
Proof.
  split; [reflexivity|].
  split; [vm_compute; reflexivity|].
  split; [intros; apply crc16_snoc|].
  split; [intros data; pose proof (crc16_range data); lia|].
  apply crc16_index_in_table.
Qed.

(** ** Sending *)

Lemma encode_send_request_status (e : env) (opcode : Z) (data : pyarg)
    (frame : list byte) :
  request_frame opcode data = Ret frame ->
  encode_send_request e opcode data =
  Ret (match uart_write e frame with
       | Some _ => ANS_STATUS_DATA_SENT
       | None => ANS_STATUS_HW_ERR
       end).
Proof.
  intros H. unfold encode_send_request. rewrite H. simpl.
  destruct (uart_write e frame); reflexivity.
Qed.

Lemma encode_send_request_values (e : env) (opcode : Z) (data : pyarg) (st : Z) :
  encode_send_request e opcode data = Ret st ->
  st = ANS_STATUS_DATA_SENT \/ st = ANS_STATUS_HW_ERR.
Proof.
  unfold encode_send_request. intros H.
  apply bind_ret_inv in H as (frame & _ & H).
  destruct (uart_write e frame); inversion H; auto.
Qed.

(** C6 (as the code has it). The status of a send follows only whether
    [UART.write] returned [None]: a failed write gives HW_ERR, and a write
    that returns a byte count gives DATA_SENT whatever the count is; the
    count is never compared with the length of the frame. *)
Theorem send_status_ignores_byte_count :
  forall (e : env) (opcode : Z) (data : pyarg) (frame : list byte),
    request_frame opcode data = Ret frame ->
    (uart_write e frame = None ->
     encode_send_request e opcode data = Ret ANS_STATUS_HW_ERR)
    /\ (forall n, uart_write e frame = Some n ->
        encode_send_request e opcode data = Ret ANS_STATUS_DATA_SENT).
Proof.
  intros e opcode data frame H.
  rewrite (encode_send_request_status e _ _ _ H).
  split; [intros -> | intros n ->]; reflexivity.
Qed.

Lemma send_status_ignores_byte_count_witness :
  request_frame RTC_RR (AStr "") =
    Ret [x02; "1"; "7"; "2"; "6"; "8"; "3"; x03]%byte
  /\ encode_send_request dead_port RTC_RR (AStr "") = Ret ANS_STATUS_HW_ERR
  /\ encode_send_request short_writer RTC_RR (AStr "") = Ret ANS_STATUS_DATA_SENT.
Proof.
  split; [reflexivity|].
  split.
  - apply (send_status_ignores_byte_count dead_port RTC_RR (AStr "")
             [x02; "1"; "7"; "2"; "6"; "8"; "3"; x03]%byte);
      reflexivity.
  - apply (send_status_ignores_byte_count short_writer RTC_RR (AStr "")
             [x02; "1"; "7"; "2"; "6"; "8"; "3"; x03]%byte eq_refl)
      with (n := 3).
    reflexivity.
Defined.

(** C6 (as stated) fails: the eight-byte RTC request frame, of which the
    port reports only three bytes written, is answered with DATA_SENT. *)
Lemma short_write_reports_data_sent :
  request_frame RTC_RR (AStr "") =
    Ret [x02; "1"; "7"; "2"; "6"; "8"; "3"; x03]%byte
  /\ uart_write short_writer [x02; "1"; "7"; "2"; "6"; "8"; "3"; x03]%byte = Some 3
  /\ 3 < len [x02; "1"; "7"; "2"; "6"; "8"; "3"; x03]%byte
  /\ encode_send_request short_writer RTC_RR (AStr "") = Ret ANS_STATUS_DATA_SENT
  /\ ANS_STATUS_DATA_SENT <> ANS_STATUS_HW_ERR.
Proof.
  repeat split; try reflexivity; discriminate.
Qed.

(** ** Capture *)

Lemma capture_etx_first (pre : list (option byte)) :
  (forall c, In (Some c) pre -> c <> x02) ->
  forall rest, capture (pre ++ Some x03 :: rest) false [] = [].
Proof.
  induction pre as [|p pre IH]; intros Hpre rest.
  - reflexivity.
  - destruct p as [c|].
    + assert (Hc : c <> x02) by (apply Hpre; left; reflexivity).
      cbn [app capture].
      assert (E : bytes_eqb [c] STX = false).
      { unfold bytes_eqb, STX.
        destruct (list_eq_dec byte_eq_dec [c] [x02]) as [E|E];
          [inversion E; contradiction | reflexivity]. }
      rewrite E.
      destruct (bytes_eqb [c] ETX); [reflexivity|].
      apply IH. intros c' Hin. apply Hpre. right. exact Hin.
    + cbn [app capture]. apply IH. intros c' Hin. apply Hpre. right. exact Hin.
Qed.

(** C10. When an ETX byte arrives before any STX byte, the loop stops with
    the buffer still empty and the call returns TIMEOUT, whatever follows
    in the stream. *)
Theorem etx_before_stx_is_timeout :
  forall (pre rest : list (option byte)),
    (forall c, In (Some c) pre -> c <> x02) ->
    capture (pre ++ Some x03 :: rest) false [] = []
    /\ receive_decode_answer (pre ++ Some x03 :: rest) =
       Ret (ANS_STATUS_TIMEOUT, None, None).
Proof.
  intros pre rest Hpre.
  unfold receive_decode_answer.
  rewrite (capture_etx_first pre Hpre rest).
  split; reflexivity.
Qed.

Lemma etx_before_stx_is_timeout_witness :
  receive_decode_answer (uart_polls (answering RTC_RA "00000000")) =
    Ret (ANS_STATUS_DATA_RECEIVED, Some RTC_RA, Some [x00; x00; x00; x00])
  /\ capture ([None; Some "A"%byte] ++ Some x03
                :: uart_polls (answering RTC_RA "00000000")) false [] = []
  /\ receive_decode_answer
       ([None; Some "A"%byte] ++ Some x03
          :: uart_polls (answering RTC_RA "00000000")) =
     Ret (ANS_STATUS_TIMEOUT, None, None).
Proof.
  split; [vm_compute; reflexivity|].
  apply (etx_before_stx_is_timeout [None; Some "A"%byte]
           (uart_polls (answering RTC_RA "00000000"))).
  intros c [H|[H|[]]]; [discriminate H | inversion H; discriminate].
Defined.

(** ** Decoding *)

Lemma decode_answer_short (message_buffer : list byte) :
  len message_buffer <= 6 ->
  decode_answer message_buffer = Ret (ANS_STATUS_TIMEOUT, None, None).
Proof.
  intros H. unfold decode_answer.
  destruct (6 <? len message_buffer) eqn:E; [apply Z.ltb_lt in E; lia | reflexivity].
Qed.

(** C5 (what the code does at the boundary). The six-byte frame
    STX "FFFF" ETX carries the CRC of the empty body, and it is reported
    as TIMEOUT like every buffer of at most six bytes: the length test is
    [len(message_buffer) > 6]. *)
Theorem six_byte_frame_is_timeout :
  _generate_crc "" = Ret "FFFF"%string
  /\ len [x02; "F"; "F"; "F"; "F"; x03]%byte = 6
  /\ capture (map Some [x02; "F"; "F"; "F"; "F"; x03]%byte) false [] =
       [x02; "F"; "F"; "F"; "F"; x03]%byte
  /\ receive_decode_answer (map Some [x02; "F"; "F"; "F"; "F"; x03]%byte) =
       Ret (ANS_STATUS_TIMEOUT, None, None).
Proof.
  split; [reflexivity|].
  split; [reflexivity|].
  split; [reflexivity|].
  unfold receive_decode_answer. apply decode_answer_short. vm_compute. discriminate.
Qed.

Lemma getitem_0_inv {A : Type} (l : list A) (a : A) :
  getitem l 0 = Ret a -> exists t, l = a :: t.
Proof.
  destruct l as [|x t]; cbn; intros H; inversion H. eauto.
Qed.

Lemma decode_answer_other_status (message_buffer : list byte) (st : Z)
    (o : option Z) (d : option (list byte)) :
  decode_answer message_buffer = Ret (st, o, d) ->
  st <> ANS_STATUS_TIMEOUT ->
  st <> ANS_STATUS_CRC_NOT_VALID ->
  st <> ANS_STATUS_DATA_RECEIVED ->
  error_frame message_buffer st /\ o = None /\ d = None.
Proof.
  unfold decode_answer. intros H Ht Hc Hd.
  destruct (6 <? len message_buffer); [|inversion H; congruence].
  apply bind_ret_inv in H as (message & Hm & H).
  apply bind_ret_inv in H as (crc_check & _ & H).
  apply bind_ret_inv in H as (com_buf & Hu & H).
  apply bind_ret_inv in H as (crc & _ & H).
  destruct (String.eqb crc crc_check); [|inversion H; congruence].
  apply bind_ret_inv in H as (c0 & H0 & H).
  destruct (byte_to_Z c0 =? ERR_RA) eqn:E.
  - apply Z.eqb_eq in E.
    assert (c0 = xff) by (apply byte_to_Z_inj; exact E). subst c0.
    apply getitem_0_inv in H0 as (t & ->).
    destruct t as [|c1 [|c2 body]]; cbn in H; try discriminate.
    inversion H; subst. repeat split.
    exists message, c1, c2, body. auto.
  - apply bind_ret_inv in H as (op & _ & H). inversion H; congruence.
Qed.

Lemma decode_answer_opcode_payload (message_buffer : list byte) (st op : Z)
    (d : option (list byte)) :
  decode_answer message_buffer = Ret (st, Some op, d) ->
  st = ANS_STATUS_DATA_RECEIVED /\ exists data, d = Some data.
Proof.
  unfold decode_answer. intros H.
  destruct (6 <? len message_buffer); [|inversion H].
  apply bind_ret_inv in H as (message & Hm & H).
  apply bind_ret_inv in H as (crc_check & _ & H).
  apply bind_ret_inv in H as (com_buf & Hu & H).
  apply bind_ret_inv in H as (crc & _ & H).
  destruct (String.eqb crc crc_check); [|inversion H].
  apply bind_ret_inv in H as (c0 & H0 & H).
  destruct (byte_to_Z c0 =? ERR_RA).
  - apply bind_ret_inv in H as (c2 & _ & H).
    apply bind_ret_inv in H as (c1 & _ & H). inversion H.
  - apply bind_ret_inv in H as (op' & _ & H). inversion H; eauto.
Qed.

Lemma error_code_success_bytes (c1 c2 : byte) :
  Z.shiftl (byte_to_Z c2) 8 + byte_to_Z c1 = ANS_STATUS_SUCCESS ->
  c1 = x00 /\ c2 = x70.
Proof.
  intros H. rewrite Z.shiftl_mul_pow2 in H by lia.
  change (2 ^ 8) with 256 in H. unfold ANS_STATUS_SUCCESS in H.
  pose proof (byte_to_Z_range c1). pose proof (byte_to_Z_range c2).
  split; apply byte_to_Z_inj.
  - change (byte_to_Z x00) with 0. lia.
  - change (byte_to_Z x70) with 112. lia.
Qed.

(** ** Transactions *)

Ltac sent H :=
  rewrite H; cbn [bind];
  change (ANS_STATUS_DATA_SENT =? ANS_STATUS_DATA_SENT) with true; cbv iota.

Ltac received H := rewrite H; cbn [bind]; cbv iota beta.

Lemma subscript_nth (data : list byte) (i : Z) (b : byte) :
  nth_error data (Z.to_nat i) = Some b ->
  0 <= i ->
  subscript (Some data) i = Ret (byte_to_Z b).
Proof.
  intros H Hi. unfold subscript, getitem.
  destruct (i <? 0) eqn:E; [apply Z.ltb_lt in E; lia|].
  rewrite E, H. reflexivity.
Qed.

Ltac index n b :=
  match goal with
  | |- context [subscript (Some ?l) _] =>
      rewrite (subscript_nth l n b eq_refl ltac:(lia)); cbn [bind]
  end.

(** C1 (what the code does when the transaction fails). On a port whose
    write fails, and on a port that never answers, [guid_read],
    [serial_number_read] and [product_number_read] raise AttributeError
    from [None.decode()] instead of returning a status; and
    [configuration_write] raises TypeError before anything is sent. *)
Theorem string_reads_raise_when_transaction_fails :
  encode_send_request dead_port MGI_RR (AStr "") = Ret ANS_STATUS_HW_ERR
  /\ guid_read dead_port = Raise AttributeError
  /\ serial_number_read dead_port = Raise AttributeError
  /\ product_number_read dead_port = Raise AttributeError
  /\ receive_decode_answer (uart_polls silent_modem) =
       Ret (ANS_STATUS_TIMEOUT, None, None)
  /\ guid_read silent_modem = Raise AttributeError
  /\ serial_number_read silent_modem = Raise AttributeError
  /\ product_number_read silent_modem = Raise AttributeError
  /\ configuration_write silent_modem true false false false false false =
       Raise TypeError.
Proof.
  repeat split; vm_compute; reflexivity.
Qed.

Lemma guid_read_returns_only_success (e : env) (st : Z) (text : string) :
  guid_read e = Ret (st, text) ->
  exists data,
    receive_decode_answer (uart_polls e) =
      Ret (ANS_STATUS_DATA_RECEIVED, Some MGI_RA, Some data)
    /\ st = ANS_STATUS_SUCCESS /\ bytes_decode data = Ret text.
Proof.
  unfold guid_read. intros H.
  apply bind_ret_inv in H as (rv & _ & H).
  apply bind_ret_inv in H as ([st' value] & H1 & H).
  apply bind_ret_inv in H as (text' & Hd & H). inversion H; subst st' text'.
  destruct value as [data|]; [|discriminate Hd].
  destruct (rv =? ANS_STATUS_DATA_SENT); [|discriminate H1].
  apply bind_ret_inv in H1 as ([[rv' op] dat] & Hr & H1).
  destruct (rv' =? ANS_STATUS_DATA_RECEIVED) eqn:E1;
    destruct op as [op|]; cbn in H1; try discriminate H1.
  destruct (op =? MGI_RA) eqn:E2; try discriminate H1.
  apply Z.eqb_eq in E1, E2. inversion H1; subst.
  exists data. auto.
Qed.




(** C9 (as the code has it). [factory_reset] never promotes the status:
    once the request is sent, the status of [receive_decode_answer] is
    returned unchanged, so a valid CFG_FA answer yields DATA_RECEIVED; and
    the only way the returned value equals ANS_STATUS_SUCCESS is an error
    answer (opcode 0xFF) whose own 16-bit code is 0x7000. *)
Theorem factory_reset_never_promotes :
  forall (e : env),
    (forall st opcode data,
        encode_send_request e CFG_FR (AStr "") = Ret ANS_STATUS_DATA_SENT ->
        receive_decode_answer (uart_polls e) = Ret (st, opcode, data) ->
        factory_reset e = Ret st)
    /\ (forall data,
        encode_send_request e CFG_FR (AStr "") = Ret ANS_STATUS_DATA_SENT ->
        receive_decode_answer (uart_polls e) =
          Ret (ANS_STATUS_DATA_RECEIVED, Some CFG_FA, data) ->
        factory_reset e = Ret ANS_STATUS_DATA_RECEIVED)
    /\ (factory_reset e = Ret ANS_STATUS_SUCCESS ->
        error_frame (capture (uart_polls e) false []) ANS_STATUS_SUCCESS).
Proof.
  intros e.
  assert (Hany : forall st opcode data,
             encode_send_request e CFG_FR (AStr "") = Ret ANS_STATUS_DATA_SENT ->
             receive_decode_answer (uart_polls e) = Ret (st, opcode, data) ->
             factory_reset e = Ret st).
  { intros st opcode data Hs Hr. unfold factory_reset. sent Hs. received Hr.
    change (CFG_FR =? CFG_FA) with false. rewrite andb_false_r. reflexivity. }
  split; [exact Hany|]. split.
  - intros data Hs Hr. exact (Hany _ _ _ Hs Hr).
  - unfold factory_reset. intros H.
    apply bind_ret_inv in H as (rv & Hs & H).
    destruct (rv =? ANS_STATUS_DATA_SENT) eqn:E.
    + apply bind_ret_inv in H as ([[st op] dat] & Hr & H).
      change (CFG_FR =? CFG_FA) with false in H. rewrite andb_false_r in H.
      inversion H; subst st.
      apply (decode_answer_other_status _ _ _ _ Hr); discriminate.
    + inversion H; subst rv.
      destruct (encode_send_request_values _ _ _ _ Hs); discriminate.
Qed.

Lemma factory_reset_never_promotes_witness :
  encode_send_request (answering CFG_FA "") CFG_FR (AStr "") =
    Ret ANS_STATUS_DATA_SENT
  /\ receive_decode_answer (uart_polls (answering CFG_FA "")) =
       Ret (ANS_STATUS_DATA_RECEIVED, Some CFG_FA, Some [])
  /\ factory_reset (answering CFG_FA "") = Ret ANS_STATUS_DATA_RECEIVED.
Proof.
  split; [reflexivity|].
  split; [vm_compute; reflexivity|].
  apply (proj1 (proj2 (factory_reset_never_promotes (answering CFG_FA "")))
           (Some [])).
  - reflexivity.
  - vm_compute; reflexivity.
Defined.

(** C9 (as stated) fails: an error answer whose code is 0x7000 makes
    [factory_reset] return the value of ANS_STATUS_SUCCESS. *)
Lemma factory_reset_error_code_7000 :
  receive_decode_answer (uart_polls (answering ERR_RA "0070")) =
    Ret (0x7000, None, None)
  /\ factory_reset (answering ERR_RA "0070") = Ret ANS_STATUS_SUCCESS.
Proof.
  split; vm_compute; reflexivity.
Qed.

Lemma generate_message_id_is_str (e : env) (payload : list byte)
    (id id' : option pyid) (message : string) :
  generate_message e payload true id = Ret (id', message) ->
  exists s, id' = Some (IdStr s).
Proof.
  unfold generate_message. intros H.
  apply bind_ret_inv in H as (i & _ & H).
  apply bind_ret_inv in H as (h & _ & H).
  destruct i as [s|n]; inversion H. eauto.
Qed.

(** C8 (as the code has it). [enqueue_payload] never promotes the status
    to SUCCESS: the identifier it keeps is a [str], the echoed one is an
    [int], so every PLD_EA answer with two payload bytes ends in
    PAYLOAD_ID_CHECK_FAILED; and the only way the returned value equals
    ANS_STATUS_SUCCESS is an error answer (opcode 0xFF) whose own 16-bit
    code is 0x7000. *)
Theorem enqueue_payload_never_promotes :
  forall (e : env) (payload : list byte) (id : option pyid),
    (forall id' message d0 d1 rest,
        len payload <= ASN_MAX_MSG_SIZE ->
        generate_message e payload true id = Ret (id', message) ->
        encode_send_request e PLD_ER (AStr message) = Ret ANS_STATUS_DATA_SENT ->
        receive_decode_answer (uart_polls e) =
          Ret (ANS_STATUS_DATA_RECEIVED, Some PLD_EA, Some (d0 :: d1 :: rest)) ->
        (exists s, id' = Some (IdStr s))
        /\ enqueue_payload e payload id =
           Ret (ANS_STATUS_PAYLOAD_ID_CHECK_FAILED, id'))
    /\ (forall id',
        enqueue_payload e payload id = Ret (ANS_STATUS_SUCCESS, id') ->
        error_frame (capture (uart_polls e) false []) ANS_STATUS_SUCCESS).
Proof.
  intros e payload id. split.
  - intros id' message d0 d1 rest Hlen Hg Hs Hr.
    destruct (generate_message_id_is_str _ _ _ _ _ Hg) as (s & ->).
    split; [eauto|].
    unfold enqueue_payload.
    destruct (len payload <=? ASN_MAX_MSG_SIZE) eqn:E;
      [|apply Z.leb_gt in E; lia].
    rewrite Hg. cbn [bind]. cbv iota beta. sent Hs. received Hr.
    change (ANS_STATUS_DATA_RECEIVED =? ANS_STATUS_DATA_RECEIVED) with true.
    change (opcode_is (Some PLD_EA) PLD_EA) with true. cbn [andb].
    index 1 d1. index 0 d0. reflexivity.
  - intros id' H. unfold enqueue_payload in H.
    destruct (len payload <=? ASN_MAX_MSG_SIZE); [|discriminate H].
    apply bind_ret_inv in H as ([mid message] & Hg & H).
    destruct (generate_message_id_is_str _ _ _ _ _ Hg) as (s & ->).
    apply bind_ret_inv in H as (rv & Hs & H).
    destruct (rv =? ANS_STATUS_DATA_SENT).
    + apply bind_ret_inv in H as ([[st op] dat] & Hr & H).
      destruct ((st =? ANS_STATUS_DATA_RECEIVED) && opcode_is op PLD_EA).
      * apply bind_ret_inv in H as (d1 & _ & H).
        apply bind_ret_inv in H as (d0 & _ & H).
        cbn [id_equals_int] in H. discriminate H.
      * assert (st = ANS_STATUS_SUCCESS) by congruence. subst st.
        apply (decode_answer_other_status _ _ _ _ Hr); discriminate.
    + assert (rv = ANS_STATUS_SUCCESS) by congruence. subst rv.
      destruct (encode_send_request_values _ _ _ _ Hs); discriminate.
Qed.

Lemma enqueue_payload_never_promotes_witness :
  len [x41] <= ASN_MAX_MSG_SIZE
  /\ generate_message (answering PLD_EA "3412") [x41] true (Some (IdStr "1234")) =
       Ret (Some (IdStr "1234"), "123441"%string)
  /\ encode_send_request (answering PLD_EA "3412") PLD_ER (AStr "123441") =
       Ret ANS_STATUS_DATA_SENT
  /\ receive_decode_answer (uart_polls (answering PLD_EA "3412")) =
       Ret (ANS_STATUS_DATA_RECEIVED, Some PLD_EA, Some [x34; x12])
  /\ enqueue_payload (answering PLD_EA "3412") [x41] (Some (IdStr "1234")) =
       Ret (ANS_STATUS_PAYLOAD_ID_CHECK_FAILED, Some (IdStr "1234")).
Proof.
  split; [vm_compute; discriminate|].
  split; [reflexivity|].
  split; [reflexivity|].
  split; [vm_compute; reflexivity|].
  apply (proj1 (enqueue_payload_never_promotes (answering PLD_EA "3412") [x41]
                  (Some (IdStr "1234")))
           (Some (IdStr "1234")) "123441"%string x34 x12 []).
  - vm_compute; discriminate.
  - reflexivity.
  - reflexivity.
  - vm_compute; reflexivity.
Defined.

(** C8 (as stated) fails: an error answer whose code is 0x7000 makes
    [enqueue_payload] return the value of ANS_STATUS_SUCCESS. *)
Lemma enqueue_payload_error_code_7000 :
  receive_decode_answer (uart_polls (answering ERR_RA "0070")) =
    Ret (0x7000, None, None)
  /\ enqueue_payload (answering ERR_RA "0070") [x41] (Some (IdStr "1234")) =
       Ret (ANS_STATUS_SUCCESS, Some (IdStr "1234")).
Proof.
  split; vm_compute; reflexivity.
Qed.

(** C2 (as the code has it). When the captured frame has a valid CRC and
    decodes to an answer opcode [B], [configuration_save] and
    [configuration_read] promote the status to SUCCESS exactly when [B]
    is the expected answer opcode; for any other [B] they return the
    status DATA_RECEIVED of the decoding step unchanged and no payload.
    The same holds for [clear_free_payloads], [dequeue_payload] and
    [rtc_read]. No other status is produced for a mismatch. *)
Theorem opcode_mismatch_keeps_data_received :
  forall (e : env) (B : Z) (data : list byte),
    receive_decode_answer (uart_polls e) =
      Ret (ANS_STATUS_DATA_RECEIVED, Some B, Some data) ->
    (encode_send_request e CFG_SR (AStr "") = Ret ANS_STATUS_DATA_SENT ->
     configuration_save e =
       Ret (if B =? CFG_SA then ANS_STATUS_SUCCESS else ANS_STATUS_DATA_RECEIVED))
    /\ (encode_send_request e CFG_RR (AStr "") = Ret ANS_STATUS_DATA_SENT ->
        B <> CFG_RA ->
        configuration_read e = Ret (ANS_STATUS_DATA_RECEIVED, None))
    /\ (encode_send_request e CFG_RR (AStr "") = Ret ANS_STATUS_DATA_SENT ->
        B = CFG_RA ->
        forall d0 d1 d2 d3 d4 d5 d6 d7 rest,
          data = d0 :: d1 :: d2 :: d3 :: d4 :: d5 :: d6 :: d7 :: rest ->
          configuration_read e =
            Ret (ANS_STATUS_SUCCESS,
                 Some {| product_id := byte_to_Z d0;
                         hardware_rev := byte_to_Z d1;
                         firmware_maj_ver := byte_to_Z d2;
                         firmware_min_ver := byte_to_Z d3;
                         firmware_rev := byte_to_Z d4;
                         with_pl_ack := Z.land (byte_to_Z d5) 1;
                         with_geoloc := Z.land (byte_to_Z d5) 2;
                         with_ephemeris := Z.land (byte_to_Z d5) 4;
                         with_deep_sleep_en := Z.land (byte_to_Z d5) 8;
                         with_msg_ack_pin_en := Z.land (byte_to_Z d7) 1;
                         with_msg_reset_pin_en := Z.land (byte_to_Z d7) 2 |}))
    /\ (encode_send_request e PLD_FR (AStr "") = Ret ANS_STATUS_DATA_SENT ->
        clear_free_payloads e =
          Ret (if B =? PLD_FA then ANS_STATUS_SUCCESS else ANS_STATUS_DATA_RECEIVED))
    /\ (encode_send_request e PLD_DR (AStr "") = Ret ANS_STATUS_DATA_SENT ->
        B <> PLD_DA ->
        dequeue_payload e = Ret (ANS_STATUS_DATA_RECEIVED, None))
    /\ (encode_send_request e RTC_RR (AStr "") = Ret ANS_STATUS_DATA_SENT ->
        B <> RTC_RA ->
        rtc_read e = Ret (ANS_STATUS_DATA_RECEIVED, None)).
Proof.
  intros e B data Hr.
  assert (Hne : forall k, B <> k -> opcode_is (Some B) k = false)
    by (intros k Hk; apply Z.eqb_neq; exact Hk).
  repeat split.
  - intros Hs. unfold configuration_save. sent Hs. received Hr.
    change (ANS_STATUS_DATA_RECEIVED =? ANS_STATUS_DATA_RECEIVED) with true.
    cbn [andb opcode_is]. destruct (B =? CFG_SA); reflexivity.
  - intros Hs Hb. unfold configuration_read. sent Hs. received Hr.
    rewrite (Hne _ Hb), andb_false_r. reflexivity.
  - intros Hs -> d0 d1 d2 d3 d4 d5 d6 d7 rest ->.
    unfold configuration_read. sent Hs. received Hr.
    change (ANS_STATUS_DATA_RECEIVED =? ANS_STATUS_DATA_RECEIVED) with true.
    change (opcode_is (Some CFG_RA) CFG_RA) with true. cbn [andb].
    index 0 d0. index 1 d1. index 2 d2. index 3 d3. index 4 d4.
    index 5 d5. index 7 d7.
    reflexivity.
  - intros Hs. unfold clear_free_payloads. sent Hs. received Hr.
    change (ANS_STATUS_DATA_RECEIVED =? ANS_STATUS_DATA_RECEIVED) with true.
    cbn [andb opcode_is]. destruct (B =? PLD_FA); reflexivity.
  - intros Hs Hb. unfold dequeue_payload. sent Hs. received Hr.
    rewrite (Hne _ Hb), andb_false_r. reflexivity.
  - intros Hs Hb. unfold rtc_read. sent Hs. received Hr.
    rewrite (Hne _ Hb), andb_false_r. reflexivity.
Qed.

Lemma opcode_mismatch_keeps_data_received_witness :
  receive_decode_answer (uart_polls (answering CFG_RA "0102030405FF00FF")) =
    Ret (ANS_STATUS_DATA_RECEIVED, Some CFG_RA,
         Some [x01; x02; x03; x04; x05; xff; x00; xff])
  /\ encode_send_request (answering CFG_RA "0102030405FF00FF") CFG_SR (AStr "") =
       Ret ANS_STATUS_DATA_SENT
  /\ configuration_save (answering CFG_RA "0102030405FF00FF") =
       Ret ANS_STATUS_DATA_RECEIVED.
Proof.
  split; [vm_compute; reflexivity|].
  split; [reflexivity|].
  apply (proj1 (opcode_mismatch_keeps_data_received
                  (answering CFG_RA "0102030405FF00FF") CFG_RA
                  [x01; x02; x03; x04; x05; xff; x00; xff]
                  ltac:(vm_compute; reflexivity))).
  reflexivity.
Defined.

(** C2 (as stated) fails: [configuration_save] expects CFG_SA; given a
    valid CFG_RA answer it returns DATA_RECEIVED, the status the decoding
    step gives every well-formed answer, and not an OPCODE_NOT_VALID
    result. *)
Lemma opcode_mismatch_not_flagged :
  receive_decode_answer (uart_polls (answering CFG_RA "0102030405FF00FF")) =
    Ret (ANS_STATUS_DATA_RECEIVED, Some CFG_RA,
         Some [x01; x02; x03; x04; x05; xff; x00; xff])
  /\ CFG_RA <> CFG_SA
  /\ configuration_save (answering CFG_RA "0102030405FF00FF") =
       Ret ANS_STATUS_DATA_RECEIVED
  /\ ANS_STATUS_DATA_RECEIVED <> ANS_STATUS_OPCODE_NOT_VALID
  /\ receive_decode_answer (uart_polls (answering CFG_SA "")) =
       Ret (ANS_STATUS_DATA_RECEIVED, Some CFG_SA, Some []).
Proof.
  repeat split; try discriminate; vm_compute; reflexivity.
Qed.

(** ** Hexadecimal text *)

Lemma byte_upper_xdigit_value (c : byte) :
  xdigit_value (byte_upper c) = xdigit_value c.
Proof. destruct c; reflexivity. Qed.

Lemma byte_upper_of_xdigit (c : byte) :
  is_xdigit c = true -> is_upper_xdigit (byte_upper c) = true.
Proof. destruct c; intros H; solve [reflexivity | discriminate H]. Qed.

Lemma upper_xdigit_facts (c : byte) :
  is_upper_xdigit c = true ->
  byte_upper c = c /\ is_xdigit c = true /\ is_ascii c = true
  /\ c <> x02 /\ c <> x03.
Proof.
  destruct c; intros H; try discriminate H;
    repeat split; try reflexivity; discriminate.
Qed.

Lemma unhexlify_cons2 (hi lo : byte) (rest : list byte) :
  unhexlify (hi :: lo :: rest) =
  match xdigit_value hi, xdigit_value lo with
  | Some h, Some l => r <- unhexlify rest ;; Ret (byte_of_Z (h * 16 + l) :: r)
  | _, _ => Raise ValueError
  end.
Proof. reflexivity. Qed.

Lemma unhexlify_upper (s : list byte) :
  unhexlify (bytes_upper s) = unhexlify s.
Proof.
  induction s as [| a | a b s IH] using pair_ind; try reflexivity.
  unfold bytes_upper in *. cbn [map]. rewrite !unhexlify_cons2.
  rewrite !byte_upper_xdigit_value, IH. reflexivity.
Qed.

Lemma unhexlify_xdigits (s raw : list byte) :
  unhexlify s = Ret raw -> forallb is_xdigit s = true.
Proof.
  revert raw. induction s as [| a | a b s IH] using pair_ind; intros raw H.
  - reflexivity.
  - discriminate H.
  - rewrite unhexlify_cons2 in H. cbn [forallb]. unfold is_xdigit at 1 2.
    destruct (xdigit_value a); [|discriminate H].
    destruct (xdigit_value b); [|discriminate H].
    apply bind_ret_inv in H as (r & Hr & _). cbn [andb]. exact (IH _ Hr).
Qed.

Lemma unhexlify_app (a b ra : list byte) :
  unhexlify a = Ret ra ->
  unhexlify (a ++ b) = (rb <- unhexlify b ;; Ret (ra ++ rb)).
Proof.
  revert ra. induction a as [| x | x y a IH] using pair_ind; intros ra H.
  - inversion H. cbn [app]. destruct (unhexlify b); reflexivity.
  - discriminate H.
  - rewrite unhexlify_cons2 in H. cbn [app]. rewrite unhexlify_cons2.
    destruct (xdigit_value x); [|discriminate H].
    destruct (xdigit_value y); [|discriminate H].
    apply bind_ret_inv in H as (r & Hr & H). inversion H.
    rewrite (IH _ Hr). destruct (unhexlify b); reflexivity.
Qed.

Lemma unhexlify_hexlify_byte (c : byte) (rest : list byte) :
  unhexlify (nibble_lower (byte_to_Z c / 16) :: nibble_lower (byte_to_Z c mod 16) :: rest)
  = (r <- unhexlify rest ;; Ret (c :: r)).
Proof. rewrite unhexlify_cons2. destruct c; reflexivity. Qed.

Lemma unhexlify_hexlify (b : list byte) : unhexlify (hexlify b) = Ret b.
Proof.
  induction b as [|c b IH]; [reflexivity|].
  cbn [hexlify]. rewrite unhexlify_hexlify_byte, IH. reflexivity.
Qed.

Lemma hexlify_is_ascii (b : list byte) : forallb is_ascii (hexlify b) = true.
Proof.
  induction b as [|c b IH]; [reflexivity|].
  cbn [hexlify forallb]. rewrite IH.
  destruct c; reflexivity.
Qed.

Lemma utf8_check_ascii (p : list byte) :
  forallb is_ascii p = true -> utf8_check 0 p = true.
Proof.
  induction p as [|c p IH]; [reflexivity|].
  cbn [forallb]. intros H. apply andb_true_iff in H as [Hc Hp].
  unfold is_ascii in Hc. apply Z.ltb_lt in Hc.
  cbn [utf8_check]. change (negb (0 =? 0)) with false. cbv iota.
  destruct (0xC0 <=? byte_to_Z c) eqn:E1; [apply Z.leb_le in E1; lia|].
  destruct (0x80 <=? byte_to_Z c) eqn:E2; [apply Z.leb_le in E2; lia|].
  exact (IH Hp).
Qed.

Lemma bytes_decode_ascii (p : list byte) :
  forallb is_ascii p = true -> bytes_decode p = Ret (string_of_list_byte p).
Proof.
  intros H. unfold bytes_decode. rewrite (utf8_check_ascii _ H). reflexivity.
Qed.

Lemma str_encode_app (a b : string) :
  str_encode (a ++ b) = str_encode a ++ str_encode b.
Proof.
  unfold str_encode, list_byte_of_string.
  induction a as [|c a IH]; [reflexivity|].
  cbn [String.append list_ascii_of_string map app]. rewrite IH. reflexivity.
Qed.

Lemma str_encode_of_bytes (b : list byte) :
  str_encode (string_of_list_byte b) = b.
Proof. apply list_byte_of_string_of_list_byte. Qed.

Lemma text_to_hex_ok (text : list byte) :
  text_to_hex text = Ret (string_of_list_byte (hexlify text)).
Proof. apply bytes_decode_ascii, hexlify_is_ascii. Qed.

Lemma forallb_app_true {A : Type} (f : A -> bool) (l1 l2 : list A) :
  forallb f l1 = true -> forallb f l2 = true -> forallb f (l1 ++ l2) = true.
Proof. intros H1 H2. rewrite forallb_app, H1, H2. reflexivity. Qed.

(** ** Number formatting *)

Lemma nibble_upper_facts (k : Z) :
  0 <= k < 16 ->
  is_upper_xdigit (nibble_upper k) = true
  /\ xdigit_value (nibble_upper k) = Some k.
Proof.
  intros H.
  assert (C : k = 0 \/ k = 1 \/ k = 2 \/ k = 3 \/ k = 4 \/ k = 5 \/ k = 6 \/ k = 7
              \/ k = 8 \/ k = 9 \/ k = 10 \/ k = 11 \/ k = 12 \/ k = 13
              \/ k = 14 \/ k = 15) by lia.
  repeat (destruct C as [-> | C]; [split; reflexivity|]).
  subst k. split; reflexivity.
Qed.

Lemma hex_digits_step (f : nat) (n : Z) (acc : list byte) :
  hex_digits (S f) n acc =
  if n / 16 =? 0 then nibble_upper (n mod 16) :: acc
  else hex_digits f (n / 16) (nibble_upper (n mod 16) :: acc).
Proof. reflexivity. Qed.

Lemma log2_fuel (n : Z) (k : nat) :
  2 ^ Z.of_nat k <= n -> exists f, Z.to_nat (Z.log2 n) = (k + f)%nat.
Proof.
  intros H.
  assert (Hp : 0 < 2 ^ Z.of_nat k) by (apply Z.pow_pos_nonneg; lia).
  assert (Hl : Z.of_nat k <= Z.log2 n).
  { apply Z.log2_le_pow2; lia. }
  exists (Z.to_nat (Z.log2 n) - k)%nat. lia.
Qed.

Lemma hex_upper_digits (n : Z) :
  0 <= n < 65536 ->
  zero_pad 4 (hex_upper n) =
  [nibble_upper (n / 4096); nibble_upper (n / 256 mod 16);
   nibble_upper (n / 16 mod 16); nibble_upper (n mod 16)].
Proof.
  intros Hn. unfold hex_upper.
  assert (D1 : n / 16 / 16 = n / 256) by (rewrite Z.div_div by lia; reflexivity).
  assert (D2 : n / 16 / 16 / 16 = n / 4096)
    by (rewrite !Z.div_div by lia; reflexivity).
  destruct (Z_lt_le_dec n 16) as [H1|H1].
  { rewrite hex_digits_step.
    rewrite (Z.div_small n 16) by lia. cbn [Z.eqb].
    replace (n / 4096) with 0 by (symmetry; apply Z.div_small; lia).
    replace (n / 256) with 0 by (symmetry; apply Z.div_small; lia).
    reflexivity. }
  assert (N1 : n / 16 <> 0) by (pose proof (Z.div_le_lower_bound n 16 1); lia).
  destruct (Z_lt_le_dec n 256) as [H2|H2].
  { destruct (log2_fuel n 4 ltac:(simpl; lia)) as (f & ->).
    cbn [Nat.add]. rewrite !hex_digits_step.
    apply Z.eqb_neq in N1. rewrite N1.
    assert (E : n / 16 / 16 = 0) by (rewrite D1; apply Z.div_small; lia).
    rewrite E. cbn [Z.eqb].
    replace (n / 4096) with 0 by (symmetry; apply Z.div_small; lia).
    replace (n / 256) with 0 by (symmetry; apply Z.div_small; lia).
    reflexivity. }
  assert (N2 : n / 16 / 16 <> 0)
    by (rewrite D1; pose proof (Z.div_le_lower_bound n 256 1); lia).
  destruct (Z_lt_le_dec n 4096) as [H3|H3].
  { destruct (log2_fuel n 8 ltac:(simpl; lia)) as (f & ->).
    cbn [Nat.add]. rewrite !hex_digits_step.
    apply Z.eqb_neq in N1, N2. rewrite N1, N2.
    assert (E : n / 16 / 16 / 16 = 0) by (rewrite D2; apply Z.div_small; lia).
    rewrite E. cbn [Z.eqb]. rewrite D1.
    replace (n / 4096) with 0 by (symmetry; apply Z.div_small; lia).
    reflexivity. }
  assert (N3 : n / 16 / 16 / 16 <> 0)
    by (rewrite D2; pose proof (Z.div_le_lower_bound n 4096 1); lia).
  destruct (log2_fuel n 12 ltac:(simpl; lia)) as (f & ->).
  cbn [Nat.add]. rewrite !hex_digits_step.
  apply Z.eqb_neq in N1, N2, N3. rewrite N1, N2, N3.
  assert (E : n / 16 / 16 / 16 / 16 = 0)
    by (rewrite D2, Z.div_div by lia; apply Z.div_small; lia).
  rewrite E. cbn [Z.eqb]. rewrite D2, D1.
  replace (n / 4096 mod 16) with (n / 4096)
    by (symmetry; apply Z.mod_small; split;
        [apply Z.div_pos; lia | apply Z.div_lt_upper_bound; lia]).
  reflexivity.
Qed.

Lemma hex_upper_digits_2 (n : Z) :
  0 <= n < 256 ->
  zero_pad 2 (hex_upper n) = [nibble_upper (n / 16); nibble_upper (n mod 16)].
Proof.
  intros Hn. unfold hex_upper.
  destruct (Z_lt_le_dec n 16) as [H1|H1].
  { rewrite hex_digits_step.
    rewrite (Z.div_small n 16) by lia. reflexivity. }
  assert (N1 : n / 16 <> 0) by (pose proof (Z.div_le_lower_bound n 16 1); lia).
  destruct (log2_fuel n 4 ltac:(simpl; lia)) as (f & ->).
  cbn [Nat.add]. rewrite !hex_digits_step.
  apply Z.eqb_neq in N1. rewrite N1.
  assert (E : n / 16 / 16 = 0)
    by (rewrite Z.div_div by lia; apply Z.div_small; lia).
  rewrite E. cbn [Z.eqb].
  replace (n / 16 mod 16) with (n / 16)
    by (symmetry; apply Z.mod_small; split;
        [apply Z.div_pos; lia | apply Z.div_lt_upper_bound; lia]).
  reflexivity.
Qed.

Lemma format_04X_digits (n : Z) :
  0 <= n < 65536 ->
  format_04X n =
  string_of_list_byte
    [nibble_upper (n / 4096); nibble_upper (n / 256 mod 16);
     nibble_upper (n / 16 mod 16); nibble_upper (n mod 16)].
Proof.
  intros H. unfold format_04X.
  destruct (n <? 0) eqn:E; [apply Z.ltb_lt in E; lia|].
  rewrite (hex_upper_digits n H). reflexivity.
Qed.

Lemma format_02X_digits (n : Z) :
  0 <= n < 256 ->
  format_02X n =
  string_of_list_byte [nibble_upper (n / 16); nibble_upper (n mod 16)].
Proof.
  intros H. unfold format_02X.
  destruct (n <? 0) eqn:E; [apply Z.ltb_lt in E; lia|].
  rewrite (hex_upper_digits_2 n H). reflexivity.
Qed.

Lemma byte_to_of_Z (z : Z) : 0 <= z < 256 -> byte_to_Z (byte_of_Z z) = z.
Proof.
  intros H. unfold byte_to_Z, byte_of_Z.
  destruct (Byte.of_N (Z.to_N z)) as [b|] eqn:E.
  - apply Byte.to_of_N in E. rewrite E. lia.
  - apply Byte.of_N_None_iff in E. lia.
Qed.

(** ** The CRC field *)

Lemma getitem_nth {A : Type} (l : list A) (i : Z) (a : A) :
  nth_error l (Z.to_nat i) = Some a -> 0 <= i -> getitem l i = Ret a.
Proof.
  intros H Hi. unfold getitem.
  destruct (i <? 0) eqn:E; [apply Z.ltb_lt in E; lia|].
  rewrite E, H. reflexivity.
Qed.

Ltac item n :=
  match goal with
  | |- context [getitem ?l n] =>
      rewrite (getitem_nth l n _ eq_refl ltac:(lia)); cbn [bind]
  end.

Lemma generate_crc_value (data : string) (raw : list byte) :
  unhexlify (str_encode data) = Ret raw ->
  _generate_crc data = Ret (string_of_list_byte (crc_field (_crc16 raw))).
Proof.
  intros H. unfold _generate_crc. rewrite H. cbn [bind].
  rewrite (format_04X_digits _ (crc16_range raw)).
  unfold string_of_list_byte at 1.
  rewrite list_ascii_of_string_of_list_ascii. cbn [map].
  item 2. item 3. item 0. item 1. reflexivity.
Qed.

Lemma nibble_range_div (n d : Z) : 0 <= n -> 0 < d -> 0 <= n / d mod 16 < 16.
Proof. intros. apply Z.mod_pos_bound. lia. Qed.

Lemma crc_field_upper (crc : Z) :
  0 <= crc < 65536 -> forallb is_upper_xdigit (crc_field crc) = true.
Proof.
  intros H. unfold crc_field. cbn [forallb].
  assert (H3 : 0 <= crc / 4096 < 16)
    by (split; [apply Z.div_pos; lia | apply Z.div_lt_upper_bound; lia]).
  rewrite (proj1 (nibble_upper_facts _ (nibble_range_div crc 16 ltac:(lia) ltac:(lia)))).
  rewrite (proj1 (nibble_upper_facts _ (Z.mod_pos_bound crc 16 ltac:(lia)))).
  rewrite (proj1 (nibble_upper_facts _ H3)).
  rewrite (proj1 (nibble_upper_facts _ (nibble_range_div crc 256 ltac:(lia) ltac:(lia)))).
  reflexivity.
Qed.

Lemma upper_xdigits_fixed (s : list byte) :
  forallb is_upper_xdigit s = true -> bytes_upper s = s.
Proof.
  induction s as [|c s IH]; [reflexivity|].
  cbn [forallb]. intros H. apply andb_true_iff in H as [Hc Hs].
  unfold bytes_upper in *. cbn [map].
  rewrite (proj1 (upper_xdigit_facts c Hc)), (IH Hs). reflexivity.
Qed.

Lemma upper_xdigits_ascii (s : list byte) :
  forallb is_upper_xdigit s = true -> forallb is_ascii s = true.
Proof.
  induction s as [|c s IH]; [reflexivity|].
  cbn [forallb]. intros H. apply andb_true_iff in H as [Hc Hs].
  rewrite (proj1 (proj2 (proj2 (upper_xdigit_facts c Hc)))), (IH Hs). reflexivity.
Qed.

Lemma upper_of_xdigits (s : list byte) :
  forallb is_xdigit s = true -> forallb is_upper_xdigit (bytes_upper s) = true.
Proof.
  induction s as [|c s IH]; [reflexivity|].
  cbn [forallb]. intros H. apply andb_true_iff in H as [Hc Hs].
  unfold bytes_upper in *. cbn [map forallb].
  rewrite (byte_upper_of_xdigit c Hc), (IH Hs). reflexivity.
Qed.

Lemma hexlify_app (a b : list byte) : hexlify (a ++ b) = hexlify a ++ hexlify b.
Proof.
  induction a as [|c a IH]; [reflexivity|].
  cbn [app hexlify]. rewrite IH. reflexivity.
Qed.

(** ** Shape of a request frame *)

Lemma unhexlify_opcode_args (opcode : Z) (args : string) (raw : list byte) :
  0 <= opcode < 256 ->
  unhexlify (str_encode args) = Ret raw ->
  unhexlify (str_encode (format_02X opcode ++ args)) = Ret (byte_of_Z opcode :: raw).
Proof.
  intros Ho Ha.
  rewrite str_encode_app, (format_02X_digits _ Ho), str_encode_of_bytes.
  cbn [app]. rewrite unhexlify_cons2.
  assert (H1 : 0 <= opcode / 16 < 16)
    by (split; [apply Z.div_pos; lia | apply Z.div_lt_upper_bound; lia]).
  rewrite (proj2 (nibble_upper_facts _ H1)).
  rewrite (proj2 (nibble_upper_facts _ (Z.mod_pos_bound opcode 16 ltac:(lia)))).
  rewrite Ha. cbn [bind].
  replace (opcode / 16 * 16 + opcode mod 16) with opcode
    by (pose proof (Z.div_mod opcode 16); lia).
  reflexivity.
Qed.

Lemma request_frame_value (opcode : Z) (args : string) (raw : list byte) :
  0 <= opcode < 256 ->
  unhexlify (str_encode args) = Ret raw ->
  request_frame opcode (AStr args) =
  Ret (x02 :: bytes_upper (str_encode (format_02X opcode ++ args))
           ++ crc_field (_crc16 (byte_of_Z opcode :: raw)) ++ [x03]).
Proof.
  intros Ho Ha. unfold request_frame. cbn [str_iadd bind].
  pose proof (unhexlify_opcode_args opcode args raw Ho Ha) as Hu.
  rewrite (generate_crc_value _ _ Hu). cbn [bind].
  change (text_to_hex STX) with (@Ret string "02"%string).
  change (text_to_hex ETX) with (@Ret string "03"%string). cbn [bind].
  rewrite (bytes_decode_ascii _ (hexlify_is_ascii _)). cbn [bind].
  rewrite !str_encode_app, str_encode_of_bytes.
  change (str_encode "02") with (hexlify [x02]).
  change (str_encode "03") with (hexlify [x03]).
  rewrite <- !hexlify_app, unhexlify_hexlify. cbn [bind].
  rewrite str_encode_of_bytes. f_equal.
  unfold bytes_upper. cbn [app map]. rewrite !map_app. cbn [map].
  change (byte_upper x02) with x02. change (byte_upper x03) with x03.
  fold (bytes_upper (crc_field (_crc16 (byte_of_Z opcode :: raw)))).
  rewrite (upper_xdigits_fixed _ (crc_field_upper _ (crc16_range _))).
  rewrite <- !app_assoc. reflexivity.
Qed.

(** ** Slicing a captured frame *)

Lemma firstn_length_app {A : Type} (l1 l2 : list A) :
  firstn (List.length l1) (l1 ++ l2) = l1.
Proof.
  rewrite firstn_app, Nat.sub_diag, firstn_all. cbn [firstn]. apply app_nil_r.
Qed.

Lemma skipn_length_app {A : Type} (l1 l2 : list A) :
  skipn (List.length l1) (l1 ++ l2) = l2.
Proof.
  rewrite skipn_app, Nat.sub_diag, skipn_all. reflexivity.
Qed.

Lemma len_framed {A : Type} (x e : A) (body crc : list A) :
  List.length crc = 4%nat ->
  len (x :: body ++ crc ++ [e]) = len body + 6.
Proof.
  intros H. unfold len. cbn [List.length].
  rewrite !List.length_app, H. cbn [List.length]. lia.
Qed.

Lemma slice_message {A : Type} (x e : A) (body crc : list A) :
  List.length crc = 4%nat ->
  slice (x :: body ++ crc ++ [e]) 1 (-5) = body.
Proof.
  intros H. unfold slice. rewrite (len_framed x e body crc H).
  pose proof (len_nonneg body) as Hb.
  unfold clamp_index. change (1 <? 0) with false. change (-5 <? 0) with true.
  cbv iota.
  replace (Z.min 1 (len body + 6)) with 1 by lia.
  replace (Z.max 0 (len body + 6 + -5) - 1) with (len body) by lia.
  change (Z.to_nat 1) with 1%nat. cbn [skipn].
  unfold len. rewrite Nat2Z.id. apply firstn_length_app.
Qed.

Lemma slice_crc_check {A : Type} (x e : A) (body crc : list A) :
  List.length crc = 4%nat ->
  slice (x :: body ++ crc ++ [e]) (-5) (-1) = crc.
Proof.
  intros H. unfold slice. rewrite (len_framed x e body crc H).
  pose proof (len_nonneg body) as Hb.
  unfold clamp_index. change (-1 <? 0) with true. change (-5 <? 0) with true.
  cbv iota.
  replace (Z.max 0 (len body + 6 + -1) - Z.max 0 (len body + 6 + -5)) with 4 by lia.
  replace (Z.to_nat (Z.max 0 (len body + 6 + -5))) with (S (List.length body))
    by (unfold len; lia).
  cbn [skipn]. rewrite skipn_length_app.
  change (Z.to_nat 4) with 4%nat. rewrite <- H. apply firstn_length_app.
Qed.

Lemma string_of_list_byte_inj (a b : list byte) :
  string_of_list_byte a = string_of_list_byte b -> a = b.
Proof.
  intros H.
  rewrite <- (list_byte_of_string_of_list_byte a),
          <- (list_byte_of_string_of_list_byte b), H.
  reflexivity.
Qed.

(** What the decoding step does with a frame whose body and CRC field are
    plain ASCII: the first and the last byte are cut off unread, the body
    is unhexlified, and the four characters before the last byte are
    compared with the CRC field computed from the body. *)
Lemma decode_answer_framed (x e : byte) (body crc com_buf : list byte) :
  forallb is_ascii body = true ->
  forallb is_ascii crc = true ->
  List.length crc = 4%nat ->
  body <> [] ->
  unhexlify body = Ret com_buf ->
  decode_answer (x :: body ++ crc ++ [e]) =
  if bytes_eqb (crc_field (_crc16 com_buf)) crc then
    c0 <- getitem com_buf 0 ;;
    if byte_to_Z c0 =? ERR_RA then
      c2 <- getitem com_buf 2 ;;
      c1 <- getitem com_buf 1 ;;
      Ret (Z.shiftl (byte_to_Z c2) 8 + byte_to_Z c1, None, None)
    else
      opcode <- getitem com_buf 0 ;;
      Ret (ANS_STATUS_DATA_RECEIVED, Some (byte_to_Z opcode),
           Some (slice_from com_buf 1))
  else Ret (ANS_STATUS_CRC_NOT_VALID, None, None).
Proof.
  intros Hb Hc Hl Hne Hu. unfold decode_answer.
  rewrite (len_framed x e body crc Hl).
  assert (Hlen : (6 <? len body + 6) = true).
  { apply Z.ltb_lt. destruct body; [contradiction|]. rewrite len_cons.
    pose proof (len_nonneg body). lia. }
  rewrite Hlen, (slice_message x e body crc Hl), (slice_crc_check x e body crc Hl).
  rewrite (bytes_decode_ascii _ Hb), (bytes_decode_ascii _ Hc). cbn [bind].
  rewrite str_encode_of_bytes, Hu. cbn [bind].
  rewrite (generate_crc_value (string_of_list_byte body) com_buf)
    by (rewrite str_encode_of_bytes; exact Hu).
  cbn [bind]. unfold bytes_eqb.
  destruct (list_eq_dec byte_eq_dec (crc_field (_crc16 com_buf)) crc) as [E|E].
  - rewrite E, String.eqb_refl. reflexivity.
  - destruct (String.eqb _ _) eqn:E'; [|reflexivity].
    apply String.eqb_eq, string_of_list_byte_inj in E'. contradiction.
Qed.

(** ** Capturing a frame *)

Lemma capture_until_etx (body : list byte) :
  forallb (fun c => negb (Byte.eqb c x03)) body = true ->
  forall buf rest,
    capture (map Some body ++ Some x03 :: rest) true buf = buf ++ body ++ [x03].
Proof.
  induction body as [|c body IH]; intros H buf rest.
  - cbn [map app capture]. change (bytes_eqb [x03] ETX) with true.
    destruct (bytes_eqb [x03] STX); reflexivity.
  - cbn [forallb] in H. apply andb_true_iff in H as [Hc Hb].
    cbn [map app capture].
    assert (E : bytes_eqb [c] ETX = false).
    { unfold bytes_eqb, ETX.
      destruct (list_eq_dec byte_eq_dec [c] [x03]) as [E|E]; [|reflexivity].
      inversion E; subst c. discriminate Hc. }
    rewrite E.
    replace (if bytes_eqb [c] STX then true else true) with true
      by (destruct (bytes_eqb [c] STX); reflexivity).
    rewrite (IH Hb). rewrite <- app_assoc. reflexivity.
Qed.

Lemma capture_frame (body : list byte) (rest : list (option byte)) :
  forallb (fun c => negb (Byte.eqb c x03)) body = true ->
  capture (map Some (x02 :: body ++ [x03]) ++ rest) false [] = x02 :: body ++ [x03].
Proof.
  intros H. cbn [map app capture].
  change (bytes_eqb [x02] STX) with true. change (bytes_eqb [x02] ETX) with false.
  cbv iota. rewrite map_app. cbn [map]. rewrite <- app_assoc. cbn [app].
  rewrite (capture_until_etx body H). reflexivity.
Qed.

Lemma upper_xdigits_no_etx (s : list byte) :
  forallb is_upper_xdigit s = true ->
  forallb (fun c => negb (Byte.eqb c x03)) s = true.
Proof.
  induction s as [|c s IH]; [reflexivity|].
  cbn [forallb]. intros H. apply andb_true_iff in H as [Hc Hs].
  rewrite (IH Hs), andb_true_r.
  destruct c; try reflexivity; discriminate Hc.
Qed.

(** ** Frame round trip *)

Lemma slice_from_tail {A : Type} (a : A) (l : list A) :
  slice_from (a :: l) 1 = l.
Proof.
  unfold slice_from, clamp_index. change (1 <? 0) with false. cbv iota.
  rewrite len_cons. pose proof (len_nonneg l).
  replace (Z.min 1 (1 + len l)) with 1 by lia. reflexivity.
Qed.

Lemma request_body_upper (opcode : Z) (args : string) (raw : list byte) :
  0 <= opcode < 256 ->
  unhexlify (str_encode args) = Ret raw ->
  forallb is_upper_xdigit
    (bytes_upper (str_encode (format_02X opcode ++ args))) = true
  /\ unhexlify (bytes_upper (str_encode (format_02X opcode ++ args))) =
     Ret (byte_of_Z opcode :: raw)
  /\ bytes_upper (str_encode (format_02X opcode ++ args)) <> [].
Proof.
  intros Ho Ha.
  pose proof (unhexlify_opcode_args opcode args raw Ho Ha) as Hu.
  split; [|split].
  - apply upper_of_xdigits. exact (unhexlify_xdigits _ _ Hu).
  - rewrite unhexlify_upper. exact Hu.
  - intros E. rewrite <- unhexlify_upper, E in Hu. discriminate Hu.
Qed.

(** C3 (as the code has it). For every opcode byte other than the error
    opcode 0xFF and every argument string that [unhexlify] accepts,
    [request_frame] produces a frame; receiving that frame, whatever
    follows it on the line, yields DATA_RECEIVED with the same opcode and
    the bytes the argument string denotes; and the CRC recomputed from
    the frame's body equals the frame's CRC field. *)
Theorem frame_round_trip :
  forall (opcode : Z) (args : string) (raw : list byte) (rest : list (option byte)),
    0 <= opcode < 255 ->
    unhexlify (str_encode args) = Ret raw ->
    exists frame,
      request_frame opcode (AStr args) = Ret frame
      /\ receive_decode_answer (map Some frame ++ rest) =
         Ret (ANS_STATUS_DATA_RECEIVED, Some opcode, Some raw)
      /\ exists message crc,
          bytes_decode (slice frame 1 (-5)) = Ret message
          /\ _generate_crc message = Ret crc
          /\ bytes_decode (slice frame (-5) (-1)) = Ret crc.
Proof.
  intros opcode args raw rest Ho Ha.
  assert (Ho' : 0 <= opcode < 256) by lia.
  destruct (request_body_upper opcode args raw Ho' Ha) as (Hup & Hun & Hne).
  set (body := bytes_upper (str_encode (format_02X opcode ++ args))) in *.
  set (crc := crc_field (_crc16 (byte_of_Z opcode :: raw))).
  pose proof (crc_field_upper _ (crc16_range (byte_of_Z opcode :: raw))) as Hcu.
  fold crc in Hcu.
  assert (Hcl : List.length crc = 4%nat) by reflexivity.
  exists (x02 :: body ++ crc ++ [x03]).
  split; [exact (request_frame_value opcode args raw Ho' Ha)|].
  split.
  - unfold receive_decode_answer.
    replace (x02 :: body ++ crc ++ [x03]) with (x02 :: (body ++ crc) ++ [x03])
      by (rewrite <- app_assoc; reflexivity).
    rewrite capture_frame
      by (apply upper_xdigits_no_etx, forallb_app_true; assumption).
    rewrite <- app_assoc.
    rewrite (decode_answer_framed x02 x03 body crc (byte_of_Z opcode :: raw)
               (upper_xdigits_ascii _ Hup) (upper_xdigits_ascii _ Hcu) Hcl Hne Hun).
    fold crc. unfold bytes_eqb.
    destruct (list_eq_dec byte_eq_dec crc crc) as [_|N]; [|contradiction].
    item 0. rewrite (byte_to_of_Z opcode Ho').
    destruct (opcode =? ERR_RA) eqn:E; [apply Z.eqb_eq in E; unfold ERR_RA in E; lia|].
    rewrite slice_from_tail. reflexivity.
  - exists (string_of_list_byte body), (string_of_list_byte crc).
    rewrite (slice_message x02 x03 body crc Hcl),
            (slice_crc_check x02 x03 body crc Hcl).
    rewrite (bytes_decode_ascii _ (upper_xdigits_ascii _ Hup)),
            (bytes_decode_ascii _ (upper_xdigits_ascii _ Hcu)).
    repeat split.
    apply generate_crc_value. rewrite str_encode_of_bytes. exact Hun.
Qed.

Lemma frame_round_trip_witness :
  0 <= PLD_ER < 255
  /\ unhexlify (str_encode "12ab41") = Ret [x12; xab; x41]
  /\ exists frame,
      request_frame PLD_ER (AStr "12ab41") = Ret frame
      /\ receive_decode_answer (map Some frame ++ [None; Some x02]) =
         Ret (ANS_STATUS_DATA_RECEIVED, Some PLD_ER, Some [x12; xab; x41])
      /\ exists message crc,
          bytes_decode (slice frame 1 (-5)) = Ret message
          /\ _generate_crc message = Ret crc
          /\ bytes_decode (slice frame (-5) (-1)) = Ret crc.
Proof.
  split; [unfold PLD_ER; lia|].
  split; [reflexivity|].
  apply (frame_round_trip PLD_ER "12ab41" [x12; xab; x41] [None; Some x02]).
  - unfold PLD_ER; lia.
  - reflexivity.
Defined.

(** C3 (as stated) fails at the opcode byte 0xFF: the frame encoded from
    (0xFF, "0102") is decoded as an error answer with code 0x0201, and the
    frame encoded from (0xFF, "") makes the decoding step raise. *)
Lemma round_trip_fails_for_error_opcode :
  unhexlify (str_encode "0102") = Ret [x01; x02]
  /\ request_frame ERR_RA (AStr "0102") = Ret (frame_or_empty ERR_RA "0102")
  /\ receive_decode_answer (map Some (frame_or_empty ERR_RA "0102")) =
       Ret (0x0201, None, None)
  /\ request_frame ERR_RA (AStr "") = Ret (frame_or_empty ERR_RA "")
  /\ receive_decode_answer (map Some (frame_or_empty ERR_RA "")) =
       Raise IndexError.
Proof.
  repeat split; vm_compute; reflexivity.
Qed.

(** ** Further properties of the codec *)

Lemma unhexlify_odd (s : list byte) :
  Nat.odd (List.length s) = true -> unhexlify s = Raise ValueError.
Proof.
  induction s as [| a | a b s IH] using pair_ind; intros H.
  - discriminate H.
  - reflexivity.
  - rewrite unhexlify_cons2.
    destruct (xdigit_value a); [|reflexivity].
    destruct (xdigit_value b); [|reflexivity].
    rewrite IH; [reflexivity|]. exact H.
Qed.

Lemma unhexlify_non_xdigit (s : list byte) :
  forallb is_xdigit s = false -> unhexlify s = Raise ValueError.
Proof.
  induction s as [| a | a b s IH] using pair_ind; intros H.
  - discriminate H.
  - reflexivity.
  - rewrite unhexlify_cons2. cbn [forallb] in H. unfold is_xdigit at 1 2 in H.
    destruct (xdigit_value a); [|reflexivity].
    destruct (xdigit_value b); [|reflexivity].
    cbn [andb] in H. rewrite (IH H). reflexivity.
Qed.

Lemma unhexlify_even_xdigits (s : list byte) :
  Nat.even (List.length s) = true ->
  forallb is_xdigit s = true ->
  exists raw, unhexlify s = Ret raw /\ (2 * List.length raw = List.length s)%nat.
Proof.
  induction s as [| a | a b s IH] using pair_ind; intros He Hx.
  - exists []. split; reflexivity.
  - discriminate He.
  - cbn [forallb] in Hx. unfold is_xdigit at 1 2 in Hx.
    rewrite unhexlify_cons2.
    destruct (xdigit_value a) as [h|]; [|discriminate Hx].
    destruct (xdigit_value b) as [l|]; [|discriminate Hx].
    destruct (IH He Hx) as (raw & Hr & Hl).
    exists (byte_of_Z (h * 16 + l) :: raw). rewrite Hr. split; [reflexivity|].
    cbn [List.length]. lia.
Qed.

Lemma length_str_encode (s : string) :
  List.length (str_encode s) = String.length s.
Proof.
  unfold str_encode, list_byte_of_string.
  induction s as [|c s IH]; [reflexivity|].
  cbn [list_ascii_of_string map List.length String.length]. rewrite IH. reflexivity.
Qed.

Lemma length_bytes_upper (s : list byte) :
  List.length (bytes_upper s) = List.length s.
Proof. apply length_map. Qed.

Lemma length_format_02X (opcode : Z) :
  0 <= opcode < 256 -> List.length (str_encode (format_02X opcode)) = 2%nat.
Proof.
  intros H. rewrite (format_02X_digits _ H), str_encode_of_bytes. reflexivity.
Qed.

Lemma request_frame_invalid_args (opcode : Z) (args : string) :
  0 <= opcode < 256 ->
  unhexlify (str_encode args) = Raise ValueError ->
  request_frame opcode (AStr args) = Raise ValueError.
Proof.
  intros Ho Ha. unfold request_frame, _generate_crc. cbn [str_iadd bind].
  rewrite str_encode_app, (format_02X_digits _ Ho), str_encode_of_bytes.
  cbn [app]. rewrite unhexlify_cons2.
  assert (H1 : 0 <= opcode / 16 < 16)
    by (split; [apply Z.div_pos; lia | apply Z.div_lt_upper_bound; lia]).
  rewrite (proj2 (nibble_upper_facts _ H1)).
  rewrite (proj2 (nibble_upper_facts _ (Z.mod_pos_bound opcode 16 ltac:(lia)))).
  rewrite Ha. reflexivity.
Qed.

(** X1. For a string of hexadecimal digits that denotes the bytes [raw],
    [_generate_crc] returns four upper-case hexadecimal characters that
    spell the checksum of [raw] low byte first. *)
Theorem generate_crc_low_byte_first :
  forall (data : string) (raw : list byte),
    unhexlify (str_encode data) = Ret raw ->
    exists crc,
      _generate_crc data = Ret crc
      /\ String.length crc = 4%nat
      /\ forallb is_upper_xdigit (str_encode crc) = true
      /\ unhexlify (str_encode crc) =
         Ret [byte_of_Z (_crc16 raw mod 256); byte_of_Z (_crc16 raw / 256)].
Proof.
  intros data raw H.
  exists (string_of_list_byte (crc_field (_crc16 raw))).
  pose proof (crc16_range raw) as Hc.
  split; [exact (generate_crc_value data raw H)|].
  split; [rewrite <- length_str_encode, str_encode_of_bytes; reflexivity|].
  rewrite str_encode_of_bytes.
  split; [exact (crc_field_upper _ Hc)|].
  unfold crc_field. rewrite !unhexlify_cons2.
  assert (H3 : 0 <= _crc16 raw / 4096 < 16)
    by (split; [apply Z.div_pos; lia | apply Z.div_lt_upper_bound; lia]).
  rewrite (proj2 (nibble_upper_facts _ (nibble_range_div (_crc16 raw) 16 ltac:(lia) ltac:(lia)))).
  rewrite (proj2 (nibble_upper_facts _ (Z.mod_pos_bound (_crc16 raw) 16 ltac:(lia)))).
  rewrite (proj2 (nibble_upper_facts _ H3)).
  rewrite (proj2 (nibble_upper_facts _ (nibble_range_div (_crc16 raw) 256 ltac:(lia) ltac:(lia)))).
  cbn [unhexlify bind].
  replace (_crc16 raw / 16 mod 16 * 16 + _crc16 raw mod 16) with (_crc16 raw mod 256)
    by (Z.to_euclidean_division_equations; lia).
  replace (_crc16 raw / 4096 * 16 + _crc16 raw / 256 mod 16) with (_crc16 raw / 256)
    by (Z.to_euclidean_division_equations; lia).
  reflexivity.
Qed.

Lemma generate_crc_low_byte_first_witness :
  unhexlify (str_encode "17") = Ret [x17]
  /\ _crc16 [x17] = 0x8326
  /\ exists crc,
      _generate_crc "17" = Ret crc
      /\ String.length crc = 4%nat
      /\ forallb is_upper_xdigit (str_encode crc) = true
      /\ unhexlify (str_encode crc) =
         Ret [byte_of_Z (_crc16 [x17] mod 256); byte_of_Z (_crc16 [x17] / 256)].
Proof.
  split; [reflexivity|]. split; [reflexivity|].
  apply (generate_crc_low_byte_first "17" [x17]). reflexivity.
Defined.

(** X2. [encode_send_request] raises ValueError, whatever the port does,
    when the argument string has an odd number of characters or contains
    a character that is not a hexadecimal digit. *)
Theorem encode_send_request_rejects_bad_hex :
  forall (e : env) (opcode : Z) (args : string),
    0 <= opcode < 256 ->
    Nat.odd (String.length args) = true
    \/ forallb is_xdigit (str_encode args) = false ->
    encode_send_request e opcode (AStr args) = Raise ValueError.
Proof.
  intros e opcode args Ho H. unfold encode_send_request.
  rewrite request_frame_invalid_args; [reflexivity | exact Ho |].
  destruct H as [H|H].
  - apply unhexlify_odd. rewrite length_str_encode. exact H.
  - apply unhexlify_non_xdigit. exact H.
Qed.

Lemma encode_send_request_rejects_bad_hex_witness :
  encode_send_request silent_modem PLD_ER (AStr "123") = Raise ValueError
  /\ encode_send_request silent_modem PLD_ER (AStr "12g4") = Raise ValueError.
Proof.
  split.
  - apply (encode_send_request_rejects_bad_hex silent_modem PLD_ER "123");
      [unfold PLD_ER; lia | left; reflexivity].
  - apply (encode_send_request_rejects_bad_hex silent_modem PLD_ER "12g4");
      [unfold PLD_ER; lia | right; reflexivity].
Defined.

(** X3. For an opcode byte and an argument string of an even number of
    hexadecimal digits, the frame handed to [UART.write] is STX, then
    upper-case hexadecimal digits only (two for the opcode, the
    arguments, four for the CRC), then ETX; so it is eight bytes longer
    than the argument string, and the status is DATA_SENT or HW_ERR. *)
Theorem request_frame_wire_format :
  forall (e : env) (opcode : Z) (args : string),
    0 <= opcode < 256 ->
    Nat.even (String.length args) = true ->
    forallb is_xdigit (str_encode args) = true ->
    exists inner,
      request_frame opcode (AStr args) = Ret (x02 :: inner ++ [x03])
      /\ forallb is_upper_xdigit inner = true
      /\ List.length inner = (String.length args + 6)%nat
      /\ encode_send_request e opcode (AStr args) =
         Ret (match uart_write e (x02 :: inner ++ [x03]) with
              | Some _ => ANS_STATUS_DATA_SENT
              | None => ANS_STATUS_HW_ERR
              end).
Proof.
  intros e opcode args Ho He Hx.
  rewrite <- length_str_encode in He.
  destruct (unhexlify_even_xdigits _ He Hx) as (raw & Hr & _).
  destruct (request_body_upper opcode args raw Ho Hr) as (Hup & _ & _).
  pose proof (request_frame_value opcode args raw Ho Hr) as Hf.
  exists (bytes_upper (str_encode (format_02X opcode ++ args))
          ++ crc_field (_crc16 (byte_of_Z opcode :: raw))).
  rewrite <- app_assoc.
  split; [exact Hf|].
  split; [apply forallb_app_true;
          [exact Hup | exact (crc_field_upper _ (crc16_range _))]|].
  split.
  - rewrite List.length_app, length_bytes_upper, str_encode_app, List.length_app.
    rewrite (length_format_02X _ Ho), length_str_encode.
    unfold crc_field. cbn [List.length]. lia.
  - exact (encode_send_request_status e _ _ _ Hf).
Qed.

Lemma request_frame_wire_format_witness :
  exists inner,
    request_frame PLD_ER (AStr "12ab41") = Ret (x02 :: inner ++ [x03])
    /\ forallb is_upper_xdigit inner = true
    /\ List.length inner = (String.length "12ab41" + 6)%nat
    /\ encode_send_request dead_port PLD_ER (AStr "12ab41") =
       Ret (match uart_write dead_port (x02 :: inner ++ [x03]) with
            | Some _ => ANS_STATUS_DATA_SENT
            | None => ANS_STATUS_HW_ERR
            end).
Proof.
  apply (request_frame_wire_format dead_port PLD_ER "12ab41");
    [unfold PLD_ER; lia | reflexivity | reflexivity].
Defined.

(** X4. [text_to_hex] never raises: it returns two hexadecimal characters
    per input byte, and unhexlifying them gives the input back. *)
Theorem text_to_hex_round_trip :
  forall (text : list byte),
    exists s,
      text_to_hex text = Ret s
      /\ String.length s = (2 * List.length text)%nat
      /\ unhexlify (str_encode s) = Ret text.
Proof.
  intros text. exists (string_of_list_byte (hexlify text)).
  split; [apply text_to_hex_ok|].
  rewrite <- length_str_encode, str_encode_of_bytes.
  split; [|apply unhexlify_hexlify].
  induction text as [|c t IH]; [reflexivity|].
  cbn [hexlify List.length]. rewrite IH. lia.
Qed.

(** X5. With a [str] identifier, [generate_message] keeps the identifier
    and returns it followed by the hexadecimal text of the payload: when
    the identifier spells the bytes [idb], the message spells those bytes
    followed by the payload. With an [int] identifier it raises
    TypeError. *)
Theorem generate_message_layout :
  forall (e : env) (payload : list byte) (s : string),
    exists message,
      generate_message e payload true (Some (IdStr s)) = Ret (Some (IdStr s), message)
      /\ String.length message = (String.length s + 2 * List.length payload)%nat
      /\ (forall idb, unhexlify (str_encode s) = Ret idb ->
                      unhexlify (str_encode message) = Ret (idb ++ payload))
      /\ (forall n, generate_message e payload true (Some (IdInt n)) = Raise TypeError).
Proof.
  intros e payload s.
  exists (s ++ string_of_list_byte (hexlify payload))%string.
  unfold generate_message. cbn [bind]. rewrite text_to_hex_ok. cbn [bind].
  split; [reflexivity|]. split; [|split].
  - rewrite <- !length_str_encode, str_encode_app, List.length_app,
      str_encode_of_bytes.
    f_equal. clear. induction payload as [|c t IH]; [reflexivity|].
    cbn [hexlify List.length]. rewrite IH. lia.
  - intros idb H. rewrite str_encode_app, str_encode_of_bytes.
    rewrite (unhexlify_app _ _ _ H), unhexlify_hexlify. reflexivity.
  - reflexivity.
Qed.

Lemma generate_message_layout_witness :
  unhexlify (str_encode "1234") = Ret [x12; x34]
  /\ exists message,
      generate_message silent_modem [x41] true (Some (IdStr "1234")) =
        Ret (Some (IdStr "1234"), message)
      /\ unhexlify (str_encode message) = Ret ([x12; x34] ++ [x41]).
Proof.
  split; [reflexivity|].
  destruct (generate_message_layout silent_modem [x41] "1234")
    as (message & H1 & _ & H3 & _).
  exists message. split; [exact H1|]. apply H3. reflexivity.
Defined.

(** ** Further properties of the receive loop *)

Lemma bytes_eqb_single (c d : byte) : bytes_eqb [c] [d] = Byte.eqb c d.
Proof.
  unfold bytes_eqb.
  destruct (list_eq_dec byte_eq_dec [c] [d]) as [E|E].
  - inversion E; subst. symmetry. apply Byte.byte_dec_lb. reflexivity.
  - destruct (Byte.eqb c d) eqn:E'; [|reflexivity].
    apply Byte.byte_dec_bl in E'. subst. contradiction.
Qed.

Lemma capture_skips_idle (polls : list (option byte)) :
  forall do_capture buf,
    capture (filter is_byte polls) do_capture buf = capture polls do_capture buf.
Proof.
  induction polls as [|p polls IH]; intros d buf; [reflexivity|].
  destruct p as [c|]; cbn [filter is_byte capture].
  - rewrite !IH. reflexivity.
  - apply IH.
Qed.

(** X6. Polls at which no byte is pending have no effect on the result:
    only the bytes that arrive before the deadline, in their order,
    matter. *)
Theorem receive_ignores_idle_polls :
  forall (polls : list (option byte)),
    receive_decode_answer (filter is_byte polls) = receive_decode_answer polls.
Proof.
  intros polls. unfold receive_decode_answer.
  rewrite capture_skips_idle. reflexivity.
Qed.

Lemma capture_before_stx (pre : list (option byte)) :
  (forall c, In (Some c) pre -> c <> x02 /\ c <> x03) ->
  forall rest, capture (pre ++ rest) false [] = capture rest false [].
Proof.
  induction pre as [|p pre IH]; intros Hpre rest; [reflexivity|].
  assert (Hrest : forall c, In (Some c) pre -> c <> x02 /\ c <> x03)
    by (intros c Hin; apply Hpre; right; exact Hin).
  destruct p as [c|]; cbn [app capture]; [|exact (IH Hrest rest)].
  destruct (Hpre c (or_introl eq_refl)) as [H2 H3].
  unfold STX, ETX. rewrite !bytes_eqb_single.
  destruct (Byte.eqb c x02) eqn:E2; [apply Byte.byte_dec_bl in E2; contradiction|].
  destruct (Byte.eqb c x03) eqn:E3; [apply Byte.byte_dec_bl in E3; contradiction|].
  exact (IH Hrest rest).
Qed.

(** X7. Resynchronisation: whatever arrives before the first STX, as long
    as it contains no ETX, is discarded; the result is that of the stream
    that starts at the STX. *)
Theorem leading_bytes_are_discarded :
  forall (pre rest : list (option byte)),
    (forall c, In (Some c) pre -> c <> x02 /\ c <> x03) ->
    receive_decode_answer (pre ++ rest) = receive_decode_answer rest.
Proof.
  intros pre rest H. unfold receive_decode_answer.
  rewrite (capture_before_stx pre H rest). reflexivity.
Qed.

Lemma leading_bytes_are_discarded_witness :
  receive_decode_answer
    ([Some "9"%byte; None; Some x00; Some xff]
       ++ uart_polls (answering RTC_RA "00000000")) =
  receive_decode_answer (uart_polls (answering RTC_RA "00000000")).
Proof.
  apply (leading_bytes_are_discarded
           [Some "9"%byte; None; Some x00; Some xff]
           (uart_polls (answering RTC_RA "00000000"))).
  intros c [H|[H|[H|[H|[]]]]]; inversion H; split; discriminate.
Defined.

Lemma capture_without_stx (polls : list (option byte)) :
  (forall c, In (Some c) polls -> c <> x02) ->
  capture polls false [] = [].
Proof.
  induction polls as [|p polls IH]; intros H; [reflexivity|].
  assert (Hrest : forall c, In (Some c) polls -> c <> x02)
    by (intros c Hin; apply H; right; exact Hin).
  destruct p as [c|]; cbn [capture]; [|exact (IH Hrest)].
  pose proof (H c (or_introl eq_refl)) as H2.
  unfold STX, ETX. rewrite !bytes_eqb_single.
  destruct (Byte.eqb c x02) eqn:E2; [apply Byte.byte_dec_bl in E2; contradiction|].
  destruct (Byte.eqb c x03); [reflexivity | exact (IH Hrest)].
Qed.

(** X8. A stream in which no STX arrives before the deadline, the empty
    stream included, gives TIMEOUT with no opcode and no payload. *)
Theorem no_stx_is_timeout :
  forall (polls : list (option byte)),
    (forall c, In (Some c) polls -> c <> x02) ->
    receive_decode_answer polls = Ret (ANS_STATUS_TIMEOUT, None, None).
Proof.
  intros polls H. unfold receive_decode_answer.
  rewrite (capture_without_stx polls H). reflexivity.
Qed.

Lemma no_stx_is_timeout_witness :
  receive_decode_answer
    [None; Some "1"%byte; Some "7"%byte; Some "2"%byte; Some "6"%byte;
     Some "8"%byte; Some "3"%byte; None; Some "0"%byte] =
  Ret (ANS_STATUS_TIMEOUT, None, None).
Proof.
  apply no_stx_is_timeout.
  intros c H. repeat (destruct H as [H|H]; [inversion H; discriminate|]).
  destruct H.
Defined.

Lemma capture_started_shape (polls : list (option byte)) :
  forall buf,
    exists s,
      capture polls true buf = buf ++ s
      /\ forallb not_etx (removelast s) = true.
Proof.
  induction polls as [|p polls IH]; intros buf.
  - exists []. rewrite app_nil_r. split; reflexivity.
  - destruct p as [c|]; cbn [capture]; [|exact (IH buf)].
    replace (if bytes_eqb [c] STX then true else true) with true
      by (destruct (bytes_eqb [c] STX); reflexivity).
    unfold ETX. rewrite bytes_eqb_single.
    destruct (Byte.eqb c x03) eqn:E.
    + exists [c]. split; reflexivity.
    + destruct (IH (buf ++ [c])) as (s & Hs & Hn).
      exists (c :: s). rewrite Hs, <- app_assoc. split; [reflexivity|].
      destruct s as [|d s]; [reflexivity|].
      change (removelast (c :: d :: s)) with (c :: removelast (d :: s)).
      cbn [forallb]. rewrite Hn. unfold not_etx. rewrite E. reflexivity.
Qed.

(** X9. What the loop hands to the decoding step is either empty or
    starts with STX, and an ETX can only be its last byte. *)
Theorem captured_buffer_shape :
  forall (polls : list (option byte)),
    capture polls false [] = []
    \/ exists s,
        capture polls false [] = x02 :: s
        /\ forallb not_etx (removelast s) = true.
Proof.
  induction polls as [|p polls IH]; [left; reflexivity|].
  destruct p as [c|]; cbn [capture]; [|exact IH].
  unfold STX, ETX. rewrite !bytes_eqb_single.
  destruct (Byte.eqb c x02) eqn:E2.
  - apply Byte.byte_dec_bl in E2. subst c. right.
    change (Byte.eqb x02 x03) with false. cbv iota.
    destruct (capture_started_shape polls ([] ++ [x02])) as (s & Hs & Hn).
    exists s. split; [exact Hs | exact Hn].
  - destruct (Byte.eqb c x03); [left; reflexivity | exact IH].
Qed.

Lemma capture_to_deadline (body : list byte) :
  forallb not_etx body = true ->
  forall buf, capture (map Some body) true buf = buf ++ body.
Proof.
  induction body as [|c body IH]; intros H buf.
  - cbn [map capture]. rewrite app_nil_r. reflexivity.
  - cbn [forallb] in H. apply andb_true_iff in H as [Hc Hb].
    cbn [map capture].
    replace (if bytes_eqb [c] STX then true else true) with true
      by (destruct (bytes_eqb [c] STX); reflexivity).
    unfold ETX. rewrite bytes_eqb_single.
    unfold not_etx in Hc. apply negb_true_iff in Hc. rewrite Hc.
    rewrite (IH Hb), <- app_assoc. reflexivity.
Qed.

Lemma capture_whole (body : list byte) (e : byte) :
  forallb not_etx body = true ->
  capture (map Some (x02 :: body ++ [e])) false [] = x02 :: body ++ [e].
Proof.
  intros H. destruct (byte_eq_dec e x03) as [->|Ne].
  - rewrite <- (app_nil_r (map Some (x02 :: body ++ [x03]))).
    apply capture_frame. exact H.
  - cbn [map capture].
    change (bytes_eqb [x02] STX) with true. change (bytes_eqb [x02] ETX) with false.
    cbv iota. rewrite capture_to_deadline; [reflexivity|].
    rewrite forallb_app, H. cbn [forallb]. unfold not_etx.
    destruct (Byte.eqb e x03) eqn:E; [apply Byte.byte_dec_bl in E; contradiction|].
    reflexivity.
Qed.

(** X10. The last byte of the captured buffer is cut off without being
    looked at: if the deadline passes after a frame's CRC field and one
    more byte, whatever that byte is, the buffer is decoded exactly like
    the complete frame. *)
Theorem end_marker_is_not_checked :
  forall (opcode : Z) (args : string) (raw : list byte) (e : byte),
    0 <= opcode < 255 ->
    unhexlify (str_encode args) = Ret raw ->
    exists inner,
      request_frame opcode (AStr args) = Ret (x02 :: inner ++ [x03])
      /\ receive_decode_answer (map Some (x02 :: inner ++ [e])) =
         Ret (ANS_STATUS_DATA_RECEIVED, Some opcode, Some raw).
Proof.
  intros opcode args raw e Ho Ha.
  assert (Ho' : 0 <= opcode < 256) by lia.
  destruct (request_body_upper opcode args raw Ho' Ha) as (Hup & Hun & Hne).
  set (body := bytes_upper (str_encode (format_02X opcode ++ args))) in *.
  set (crc := crc_field (_crc16 (byte_of_Z opcode :: raw))).
  pose proof (crc_field_upper _ (crc16_range (byte_of_Z opcode :: raw))) as Hcu.
  fold crc in Hcu.
  assert (Hcl : List.length crc = 4%nat) by reflexivity.
  exists (body ++ crc). rewrite <- app_assoc.
  split; [exact (request_frame_value opcode args raw Ho' Ha)|].
  unfold receive_decode_answer.
  replace (x02 :: body ++ crc ++ [e]) with (x02 :: (body ++ crc) ++ [e])
    by (rewrite <- app_assoc; reflexivity).
  rewrite capture_whole
    by (apply upper_xdigits_no_etx, forallb_app_true; assumption).
  rewrite <- app_assoc.
  rewrite (decode_answer_framed x02 e body crc (byte_of_Z opcode :: raw)
             (upper_xdigits_ascii _ Hup) (upper_xdigits_ascii _ Hcu) Hcl Hne Hun).
  fold crc. unfold bytes_eqb.
  destruct (list_eq_dec byte_eq_dec crc crc) as [_|N]; [|contradiction].
  item 0. rewrite (byte_to_of_Z opcode Ho').
  destruct (opcode =? ERR_RA) eqn:E; [apply Z.eqb_eq in E; unfold ERR_RA in E; lia|].
  rewrite slice_from_tail. reflexivity.
Qed.

Lemma end_marker_is_not_checked_witness :
  exists inner,
    request_frame RTC_RA (AStr "00000000") = Ret (x02 :: inner ++ [x03])
    /\ receive_decode_answer (map Some (x02 :: inner ++ ["Z"%byte])) =
       Ret (ANS_STATUS_DATA_RECEIVED, Some RTC_RA, Some [x00; x00; x00; x00]).
Proof.
  apply (end_marker_is_not_checked RTC_RA "00000000" [x00; x00; x00; x00] "Z"%byte).
  - unfold RTC_RA; lia.
  - reflexivity.
Defined.

(** X11. CRC check: take the frame encoded for an opcode and arguments
    and replace its CRC field by any other four ASCII characters (none of
    them ETX), lower-case spellings of the right digits included; the
    frame is then answered with CRC_NOT_VALID and nothing else. *)
Theorem altered_crc_field_is_rejected :
  forall (opcode : Z) (args : string) (raw : list byte)
         (crc' : list byte) (rest : list (option byte)),
    0 <= opcode < 256 ->
    unhexlify (str_encode args) = Ret raw ->
    List.length crc' = 4%nat ->
    forallb is_ascii crc' = true ->
    forallb not_etx crc' = true ->
    exists body crc,
      request_frame opcode (AStr args) = Ret (x02 :: body ++ crc ++ [x03])
      /\ List.length crc = 4%nat
      /\ (crc' <> crc ->
          receive_decode_answer (map Some (x02 :: body ++ crc' ++ [x03]) ++ rest) =
          Ret (ANS_STATUS_CRC_NOT_VALID, None, None)).
Proof.
  intros opcode args raw crc' rest Ho Ha Hl Hasc Hne'.
  destruct (request_body_upper opcode args raw Ho Ha) as (Hup & Hun & Hne).
  set (body := bytes_upper (str_encode (format_02X opcode ++ args))) in *.
  exists body, (crc_field (_crc16 (byte_of_Z opcode :: raw))).
  split; [exact (request_frame_value opcode args raw Ho Ha)|].
  split; [reflexivity|].
  intros Hd. unfold receive_decode_answer.
  replace (x02 :: body ++ crc' ++ [x03]) with (x02 :: (body ++ crc') ++ [x03])
    by (rewrite <- app_assoc; reflexivity).
  rewrite capture_frame.
  2:{ apply forallb_app_true; [|exact Hne']. apply upper_xdigits_no_etx. exact Hup. }
  rewrite <- app_assoc.
  rewrite (decode_answer_framed x02 x03 body crc' (byte_of_Z opcode :: raw)
             (upper_xdigits_ascii _ Hup) Hasc Hl Hne Hun).
  unfold bytes_eqb.
  destruct (list_eq_dec byte_eq_dec (crc_field (_crc16 (byte_of_Z opcode :: raw))) crc')
    as [E|_]; [symmetry in E; contradiction | reflexivity].
Qed.

Lemma altered_crc_field_is_rejected_witness :
  exists body crc,
    request_frame RTC_RA (AStr "0a000000") = Ret (x02 :: body ++ crc ++ [x03])
    /\ crc = ["F"; "9"; "3"; "8"]%byte
    /\ receive_decode_answer
         (map Some (x02 :: body ++ ["f"; "9"; "3"; "8"]%byte ++ [x03]) ++ [None]) =
       Ret (ANS_STATUS_CRC_NOT_VALID, None, None).
Proof.
  destruct (altered_crc_field_is_rejected RTC_RA "0a000000" [x0a; x00; x00; x00]
              ["f"; "9"; "3"; "8"]%byte [None])
    as (body & crc & Hf & Hl & Hr);
    [unfold RTC_RA; lia | reflexivity | reflexivity | reflexivity | reflexivity |].
  exists body, crc. split; [exact Hf|].
  assert (Hc : crc = ["F"; "9"; "3"; "8"]%byte).
  { assert (Hf' : request_frame RTC_RA (AStr "0a000000") =
                  Ret (x02 :: ["9"; "7"; "0"; "A"; "0"; "0"; "0"; "0"; "0"; "0"]%byte
                           ++ ["F"; "9"; "3"; "8"]%byte ++ [x03]))
      by (vm_compute; reflexivity).
    rewrite Hf in Hf'. inversion Hf' as [Heq].
    assert (Hlen : List.length body = 10%nat).
    { apply (f_equal (@List.length byte)) in Heq.
      rewrite !List.length_app, Hl in Heq. cbn [List.length] in Heq. lia. }
    destruct body as [|b0 [|b1 [|b2 [|b3 [|b4 [|b5 [|b6 [|b7 [|b8 [|b9 [|? ?]]]]]]]]]]];
      try discriminate Hlen.
    cbn [app] in Heq.
    destruct crc as [|c0 [|c1 [|c2 [|c3 [|? ?]]]]]; try discriminate Hl.
    cbn [app] in Heq. inversion Heq. reflexivity. }
  split; [exact Hc|]. apply Hr. rewrite Hc. discriminate.
Defined.

Lemma receive_request_frame (opcode : Z) (args : string) (raw : list byte)
    (rest : list (option byte)) :
  0 <= opcode < 256 ->
  unhexlify (str_encode args) = Ret raw ->
  exists frame,
    request_frame opcode (AStr args) = Ret frame
    /\ receive_decode_answer (map Some frame ++ rest) =
       if opcode =? ERR_RA then
         c2 <- getitem (byte_of_Z opcode :: raw) 2 ;;
         c1 <- getitem (byte_of_Z opcode :: raw) 1 ;;
         Ret (Z.shiftl (byte_to_Z c2) 8 + byte_to_Z c1, None, None)
       else Ret (ANS_STATUS_DATA_RECEIVED, Some opcode, Some raw).
Proof.
  intros Ho Ha.
  destruct (request_body_upper opcode args raw Ho Ha) as (Hup & Hun & Hne).
  set (body := bytes_upper (str_encode (format_02X opcode ++ args))) in *.
  set (crc := crc_field (_crc16 (byte_of_Z opcode :: raw))).
  pose proof (crc_field_upper _ (crc16_range (byte_of_Z opcode :: raw))) as Hcu.
  fold crc in Hcu.
  assert (Hcl : List.length crc = 4%nat) by reflexivity.
  exists (x02 :: body ++ crc ++ [x03]).
  split; [exact (request_frame_value opcode args raw Ho Ha)|].
  unfold receive_decode_answer.
  replace (x02 :: body ++ crc ++ [x03]) with (x02 :: (body ++ crc) ++ [x03])
    by (rewrite <- app_assoc; reflexivity).
  rewrite capture_frame
    by (apply upper_xdigits_no_etx, forallb_app_true; assumption).
  rewrite <- app_assoc.
  rewrite (decode_answer_framed x02 x03 body crc (byte_of_Z opcode :: raw)
             (upper_xdigits_ascii _ Hup) (upper_xdigits_ascii _ Hcu) Hcl Hne Hun).
  fold crc. unfold bytes_eqb.
  destruct (list_eq_dec byte_eq_dec crc crc) as [_|N]; [|contradiction].
  item 0. rewrite (byte_to_of_Z opcode Ho).
  destruct (opcode =? ERR_RA); [reflexivity|].
  rewrite slice_from_tail. reflexivity.
Qed.

(** X12. An error answer: a frame whose opcode byte is 0xFF and whose
    arguments start with the bytes [c1], [c2] is answered with the status
    [c1 + 256 * c2] and neither opcode nor payload; with fewer than two
    argument bytes the decoding step raises IndexError. *)
Theorem error_answer_status :
  forall (args : string) (raw : list byte) (rest : list (option byte)),
    unhexlify (str_encode args) = Ret raw ->
    exists frame,
      request_frame ERR_RA (AStr args) = Ret frame
      /\ receive_decode_answer (map Some frame ++ rest) =
         match raw with
         | c1 :: c2 :: _ => Ret (byte_to_Z c1 + 256 * byte_to_Z c2, None, None)
         | _ => Raise IndexError
         end.
Proof.
  intros args raw rest Ha.
  destruct (receive_request_frame ERR_RA args raw rest ltac:(unfold ERR_RA; lia) Ha)
    as (frame & Hf & Hr).
  exists frame. split; [exact Hf|]. rewrite Hr.
  change (ERR_RA =? ERR_RA) with true. cbv iota.
  destruct raw as [|c1 [|c2 tail]]; try reflexivity.
  item 2. item 1. rewrite Z.shiftl_mul_pow2 by lia. change (2 ^ 8) with 256.
  do 3 f_equal. lia.
Qed.

Lemma error_answer_status_witness :
  unhexlify (str_encode "0125") = Ret [x01; x25]
  /\ exists frame,
      request_frame ERR_RA (AStr "0125") = Ret frame
      /\ receive_decode_answer (map Some frame ++ []) = Ret (0x2501, None, None).
Proof.
  split; [reflexivity|].
  apply (error_answer_status "0125" [x01; x25] []). reflexivity.
Defined.

Lemma decode_answer_shape (message_buffer : list byte) (st : Z)
    (op : option Z) (d : option (list byte)) :
  decode_answer message_buffer = Ret (st, op, d) ->
  (op = None /\ d = None)
  \/ (exists o data,
        op = Some o /\ d = Some data
        /\ st = ANS_STATUS_DATA_RECEIVED /\ 0 <= o < 255).
Proof.
  unfold decode_answer. intros H.
  destruct (6 <? len message_buffer); [|inversion H; auto].
  apply bind_ret_inv in H as (message & Hm & H).
  apply bind_ret_inv in H as (crc_check & _ & H).
  apply bind_ret_inv in H as (com_buf & Hu & H).
  apply bind_ret_inv in H as (crc & _ & H).
  destruct (String.eqb crc crc_check); [|inversion H; auto].
  apply bind_ret_inv in H as (c0 & H0 & H).
  destruct (byte_to_Z c0 =? ERR_RA) eqn:E.
  - apply bind_ret_inv in H as (c2 & _ & H).
    apply bind_ret_inv in H as (c1 & _ & H). inversion H; auto.
  - apply bind_ret_inv in H as (op' & H0' & H).
    rewrite H0 in H0'. inversion H0'; subst op'.
    inversion H; subst. right.
    exists (byte_to_Z c0), (slice_from com_buf 1).
    repeat split; try reflexivity.
    + apply byte_to_Z_range.
    + apply Z.eqb_neq in E. unfold ERR_RA in E.
      pose proof (byte_to_Z_range c0). lia.
Qed.

(** X13. Whatever arrives, when [receive_decode_answer] returns, it
    returns an opcode exactly when it returns a payload; in that case the
    status is DATA_RECEIVED and the opcode is a byte other than 0xFF. *)
Theorem receive_result_shape :
  forall (polls : list (option byte)) (st : Z) (op : option Z)
         (d : option (list byte)),
    receive_decode_answer polls = Ret (st, op, d) ->
    (op = None /\ d = None)
    \/ (exists o data,
          op = Some o /\ d = Some data
          /\ st = ANS_STATUS_DATA_RECEIVED /\ 0 <= o < 255).
Proof.
  intros polls st op d H. exact (decode_answer_shape _ _ _ _ H).
Qed.

Lemma receive_result_shape_witness :
  (Some CFG_SA = None /\ Some (@nil byte) = None)
  \/ (exists o data,
        Some CFG_SA = Some o /\ Some (@nil byte) = Some data
        /\ ANS_STATUS_DATA_RECEIVED = ANS_STATUS_DATA_RECEIVED /\ 0 <= o < 255).
Proof.
  apply (receive_result_shape (uart_polls (answering CFG_SA ""))
           ANS_STATUS_DATA_RECEIVED (Some CFG_SA) (Some [])).
  vm_compute; reflexivity.
Defined.

(** ** Further properties of the operations *)

Lemma request_sent (e : env) (opcode : Z) :
  0 <= opcode < 256 ->
  accepts_writes e ->
  encode_send_request e opcode (AStr "") = Ret ANS_STATUS_DATA_SENT.
Proof.
  intros Ho Hw.
  pose proof (request_frame_value opcode "" [] Ho eq_refl) as Hf.
  rewrite (encode_send_request_status e _ _ _ Hf).
  destruct (uart_write e _) eqn:E; [reflexivity|].
  exfalso. exact (Hw _ E).
Qed.

Lemma request_not_sent (e : env) (opcode : Z) :
  0 <= opcode < 256 ->
  rejects_writes e ->
  encode_send_request e opcode (AStr "") = Ret ANS_STATUS_HW_ERR.
Proof.
  intros Ho Hw.
  pose proof (request_frame_value opcode "" [] Ho eq_refl) as Hf.
  rewrite (encode_send_request_status e _ _ _ Hf), Hw. reflexivity.
Qed.

Ltac opcode_range := unfold CFG_SR, CFG_RR, CFG_FR, RTC_RR, PLD_DR, PLD_FR,
                       MGI_RR, MSN_RR, MPN_RR, PLD_ER; lia.

Ltac not_sent Hw :=
  cbv zeta;
  match goal with
  | |- context [encode_send_request ?e ?op (AStr "")] =>
      rewrite (request_not_sent e op ltac:(opcode_range) Hw); reflexivity
  end.

Ltac was_sent Hw :=
  cbv zeta;
  match goal with
  | |- context [encode_send_request ?e ?op (AStr "")] =>
      rewrite (request_sent e op ltac:(opcode_range) Hw); cbn [bind];
      change (ANS_STATUS_DATA_SENT =? ANS_STATUS_DATA_SENT) with true; cbv iota
  end.

(** X14. When the write fails, every operation returns HW_ERR (with no
    payload) without looking at what the line delivers. *)
Theorem write_failure_is_hw_err :
  forall (e : env),
    rejects_writes e ->
    configuration_save e = Ret ANS_STATUS_HW_ERR
    /\ configuration_read e = Ret (ANS_STATUS_HW_ERR, None)
    /\ factory_reset e = Ret ANS_STATUS_HW_ERR
    /\ rtc_read e = Ret (ANS_STATUS_HW_ERR, None)
    /\ dequeue_payload e = Ret (ANS_STATUS_HW_ERR, None)
    /\ clear_free_payloads e = Ret ANS_STATUS_HW_ERR.
Proof.
  intros e Hw.
  unfold configuration_save, configuration_read, factory_reset, rtc_read,
    dequeue_payload, clear_free_payloads.
  repeat split; not_sent Hw.
Qed.

Lemma write_failure_is_hw_err_witness :
  configuration_save dead_port = Ret ANS_STATUS_HW_ERR
  /\ configuration_read dead_port = Ret (ANS_STATUS_HW_ERR, None)
  /\ factory_reset dead_port = Ret ANS_STATUS_HW_ERR
  /\ rtc_read dead_port = Ret (ANS_STATUS_HW_ERR, None)
  /\ dequeue_payload dead_port = Ret (ANS_STATUS_HW_ERR, None)
  /\ clear_free_payloads dead_port = Ret ANS_STATUS_HW_ERR.
Proof.
  apply (write_failure_is_hw_err dead_port). intros frame. reflexivity.
Defined.

(** X15. Once the request is written, a result of the receive step that
    carries no opcode (TIMEOUT, CRC_NOT_VALID, or the code of an error
    answer) is returned as it is, with no payload. *)
Theorem failures_pass_through :
  forall (e : env) (st : Z),
    accepts_writes e ->
    receive_decode_answer (uart_polls e) = Ret (st, None, None) ->
    configuration_save e = Ret st
    /\ configuration_read e = Ret (st, None)
    /\ factory_reset e = Ret st
    /\ rtc_read e = Ret (st, None)
    /\ dequeue_payload e = Ret (st, None)
    /\ clear_free_payloads e = Ret st.
Proof.
  intros e st Hw Hr.
  unfold configuration_save, configuration_read, factory_reset, rtc_read,
    dequeue_payload, clear_free_payloads.
  repeat split;
    was_sent Hw; rewrite Hr; cbn [bind opcode_is]; cbv iota beta;
    rewrite andb_false_r; reflexivity.
Qed.

Lemma failures_pass_through_witness :
  receive_decode_answer (uart_polls (answering ERR_RA "0125")) =
    Ret (0x2501, None, None)
  /\ configuration_save (answering ERR_RA "0125") = Ret 0x2501
  /\ configuration_read (answering ERR_RA "0125") = Ret (0x2501, None)
  /\ factory_reset (answering ERR_RA "0125") = Ret 0x2501
  /\ rtc_read (answering ERR_RA "0125") = Ret (0x2501, None)
  /\ dequeue_payload (answering ERR_RA "0125") = Ret (0x2501, None)
  /\ clear_free_payloads (answering ERR_RA "0125") = Ret 0x2501.
Proof.
  split; [vm_compute; reflexivity|].
  apply (failures_pass_through (answering ERR_RA "0125") 0x2501).
  - intros frame. discriminate.
  - vm_compute; reflexivity.
Defined.

(** X16. Input checks of [enqueue_payload]: a payload of more than 160
    bytes is answered with PAYLOAD_TOO_LONG and the identifier as given
    ([None] stays [None]), whatever the port does; a payload within the
    limit with an [int] identifier raises TypeError. *)
Theorem enqueue_payload_input_checks :
  forall (e : env) (payload : list byte),
    (forall id, ASN_MAX_MSG_SIZE < len payload ->
                enqueue_payload e payload id = Ret (ANS_STATUS_PAYLOAD_TOO_LONG, id))
    /\ (forall n, len payload <= ASN_MAX_MSG_SIZE ->
                  enqueue_payload e payload (Some (IdInt n)) = Raise TypeError).
Proof.
  intros e payload. split.
  - intros id H. unfold enqueue_payload.
    destruct (len payload <=? ASN_MAX_MSG_SIZE) eqn:E;
      [apply Z.leb_le in E; lia | reflexivity].
  - intros n H. unfold enqueue_payload.
    destruct (len payload <=? ASN_MAX_MSG_SIZE) eqn:E;
      [|apply Z.leb_gt in E; lia].
    unfold generate_message. cbn [bind]. rewrite text_to_hex_ok. reflexivity.
Qed.

Lemma enqueue_payload_input_checks_witness :
  enqueue_payload silent_modem (repeat x41 161) None =
    Ret (ANS_STATUS_PAYLOAD_TOO_LONG, None)
  /\ enqueue_payload silent_modem (repeat x41 160) (Some (IdInt 0x1234)) =
       Raise TypeError.
Proof.
  split.
  - apply (proj1 (enqueue_payload_input_checks silent_modem (repeat x41 161))).
    vm_compute; reflexivity.
  - apply (proj2 (enqueue_payload_input_checks silent_modem (repeat x41 160))).
    vm_compute; discriminate.
Defined.

(** X17. [dequeue_payload], once the request is written and a PLD_DA
    answer arrives: the identifier is the first two payload bytes read
    low byte first, a number from 0 to 65535, with status SUCCESS; with
    fewer than two payload bytes the call raises IndexError. *)
Theorem dequeue_payload_identifier :
  forall (e : env) (data : list byte),
    accepts_writes e ->
    receive_decode_answer (uart_polls e) =
      Ret (ANS_STATUS_DATA_RECEIVED, Some PLD_DA, Some data) ->
    match data with
    | d0 :: d1 :: _ =>
        dequeue_payload e =
          Ret (ANS_STATUS_SUCCESS, Some (byte_to_Z d0 + 256 * byte_to_Z d1))
        /\ 0 <= byte_to_Z d0 + 256 * byte_to_Z d1 <= 65535
    | _ => dequeue_payload e = Raise IndexError
    end.
Proof.
  intros e data Hw Hr.
  assert (H : dequeue_payload e =
              (d1 <- subscript (Some data) 1 ;;
               d0 <- subscript (Some data) 0 ;;
               Ret (ANS_STATUS_SUCCESS, Some (Z.shiftl d1 8 + d0)))).
  { unfold dequeue_payload. was_sent Hw. rewrite Hr. reflexivity. }
  rewrite H. destruct data as [|d0 [|d1 rest]]; try reflexivity.
  index 1 d1. index 0 d0. rewrite Z.shiftl_mul_pow2 by lia. change (2 ^ 8) with 256.
  pose proof (byte_to_Z_range d0). pose proof (byte_to_Z_range d1).
  split; [do 3 f_equal; lia | lia].
Qed.

Lemma dequeue_payload_identifier_witness :
  dequeue_payload (answering PLD_DA "3412") = Ret (ANS_STATUS_SUCCESS, Some 0x1234)
  /\ dequeue_payload (answering PLD_DA "34") = Raise IndexError.
Proof.
  split.
  - apply (dequeue_payload_identifier (answering PLD_DA "3412") [x34; x12]).
    + intros frame. discriminate.
    + vm_compute; reflexivity.
  - apply (dequeue_payload_identifier (answering PLD_DA "34") [x34]).
    + intros frame. discriminate.
    + vm_compute; reflexivity.
Defined.

(** [configuration_write] raises TypeError for every combination of
    flags and every port: its list of three integers reaches
    [msg += data] in [encode_send_request]. *)
Lemma configuration_write_always_raises :
  forall (e : env) (pl_ack geoloc ephemeris deep_sleep ack_pin reset_pin : bool),
    configuration_write e pl_ack geoloc ephemeris deep_sleep ack_pin reset_pin =
    Raise TypeError.
Proof. reflexivity. Qed.

(** X18. When the expected answer arrives with too few payload bytes,
    the operation raises IndexError instead of returning a status:
    fewer than 8 bytes for [configuration_read], fewer than 4 for
    [rtc_read]. *)
Theorem short_answer_payload_raises :
  forall (e : env) (data : list byte),
    accepts_writes e ->
    (receive_decode_answer (uart_polls e) =
       Ret (ANS_STATUS_DATA_RECEIVED, Some CFG_RA, Some data) ->
     (List.length data < 8)%nat ->
     configuration_read e = Raise IndexError)
    /\ (receive_decode_answer (uart_polls e) =
          Ret (ANS_STATUS_DATA_RECEIVED, Some RTC_RA, Some data) ->
        (List.length data < 4)%nat ->
        rtc_read e = Raise IndexError).
Proof.
  intros e data Hw. split; intros Hr Hl.
  - unfold configuration_read. was_sent Hw. rewrite Hr. cbn [bind]. cbv iota beta.
    change ((ANS_STATUS_DATA_RECEIVED =? ANS_STATUS_DATA_RECEIVED)
            && opcode_is (Some CFG_RA) CFG_RA) with true. cbv iota.
    destruct data as [|d0 [|d1 [|d2 [|d3 [|d4 [|d5 [|d6 [|d7 rest]]]]]]]];
      cbn [List.length] in Hl; try lia; reflexivity.
  - unfold rtc_read. was_sent Hw. rewrite Hr. cbn [bind]. cbv iota beta.
    change ((ANS_STATUS_DATA_RECEIVED =? ANS_STATUS_DATA_RECEIVED)
            && opcode_is (Some RTC_RA) RTC_RA) with true. cbv iota.
    destruct data as [|d0 [|d1 [|d2 [|d3 rest]]]];
      cbn [List.length] in Hl; try lia; reflexivity.
Qed.

Lemma short_answer_payload_raises_witness :
  configuration_read (answering CFG_RA "01020304050607") = Raise IndexError
  /\ rtc_read (answering RTC_RA "000000") = Raise IndexError.
Proof.
  split.
  - apply (proj1 (short_answer_payload_raises (answering CFG_RA "01020304050607")
                    [x01; x02; x03; x04; x05; x06; x07]
                    ltac:(intros frame; discriminate)));
      [vm_compute; reflexivity | cbn [List.length]; lia].
  - apply (proj2 (short_answer_payload_raises (answering RTC_RA "000000")
                    [x00; x00; x00]
                    ltac:(intros frame; discriminate)));
      [vm_compute; reflexivity | cbn [List.length]; lia].
Defined.

Ltac string_read_inv H :=
  apply bind_ret_inv in H as (?rv & _ & H);
  apply bind_ret_inv in H as ([?st' ?value] & ?H1 & H);
  apply bind_ret_inv in H as (?text' & ?Hd & H);
  match goal with
  | Hd : attr_decode ?v = Ret ?t, H1 : _ = Ret (?s, ?v) |- _ =>
      destruct v as [?data|]; [|discriminate Hd];
      match type of H1 with
      | (if ?c then _ else _) = _ => destruct c; [|discriminate H1]
      end;
      apply bind_ret_inv in H1 as ([[?rv' ?op] ?dat] & ?Hr & H1);
      match type of H1 with
      | (if (?a =? _) && opcode_is ?o ?k then _ else _) = _ =>
          destruct (a =? ANS_STATUS_DATA_RECEIVED) eqn:?E1;
          destruct o as [?o'|]; cbn [andb opcode_is] in H1;
          try discriminate H1;
          match type of H1 with
          | (if ?o2 =? k then _ else _) = _ =>
              destruct (o2 =? k) eqn:?E2; [|discriminate H1]
          end
      end
  end.

Lemma serial_number_read_returns_only_success (e : env) (st : Z) (text : string) :
  serial_number_read e = Ret (st, text) ->
  exists data,
    receive_decode_answer (uart_polls e) =
      Ret (ANS_STATUS_DATA_RECEIVED, Some MSN_RA, Some data)
    /\ st = ANS_STATUS_SUCCESS /\ bytes_decode data = Ret text.
Proof.
  unfold serial_number_read. intros H. cbv zeta in H. string_read_inv H.
  apply Z.eqb_eq in E1, E2. inversion H1; subst. inversion H; subst.
  exists data. auto.
Qed.

Lemma product_number_read_returns_only_success (e : env) (st : Z) (text : string) :
  product_number_read e = Ret (st, text) ->
  exists data,
    receive_decode_answer (uart_polls e) =
      Ret (ANS_STATUS_DATA_RECEIVED, Some MPN_RA, Some data)
    /\ st = ANS_STATUS_SUCCESS /\ bytes_decode data = Ret text.
Proof.
  unfold product_number_read. intros H. cbv zeta in H. string_read_inv H.
  apply Z.eqb_eq in E1, E2. inversion H1; subst. inversion H; subst.
  exists data. auto.
Qed.

(** X19. [guid_read], [serial_number_read] and [product_number_read]
    return a value only with status SUCCESS, after the expected answer
    whose payload decodes as text; and when the request is written and
    that answer arrives with an ASCII payload, they return SUCCESS with
    the payload as text. On every other path they raise. *)
Theorem string_reads_return_only_success :
  forall (e : env),
    (forall st text,
        guid_read e = Ret (st, text) \/ serial_number_read e = Ret (st, text)
        \/ product_number_read e = Ret (st, text) ->
        st = ANS_STATUS_SUCCESS)
    /\ (forall data,
        accepts_writes e ->
        forallb is_ascii data = true ->
        (receive_decode_answer (uart_polls e) =
           Ret (ANS_STATUS_DATA_RECEIVED, Some MGI_RA, Some data) ->
         guid_read e = Ret (ANS_STATUS_SUCCESS, string_of_list_byte data))
        /\ (receive_decode_answer (uart_polls e) =
              Ret (ANS_STATUS_DATA_RECEIVED, Some MSN_RA, Some data) ->
            serial_number_read e = Ret (ANS_STATUS_SUCCESS, string_of_list_byte data))
        /\ (receive_decode_answer (uart_polls e) =
              Ret (ANS_STATUS_DATA_RECEIVED, Some MPN_RA, Some data) ->
            product_number_read e = Ret (ANS_STATUS_SUCCESS, string_of_list_byte data))).
Proof.
  intros e. split.
  - intros st text [H|[H|H]].
    + destruct (guid_read_returns_only_success _ _ _ H) as (_ & _ & -> & _).
      reflexivity.
    + destruct (serial_number_read_returns_only_success _ _ _ H) as (_ & _ & -> & _).
      reflexivity.
    + destruct (product_number_read_returns_only_success _ _ _ H) as (_ & _ & -> & _).
      reflexivity.
  - intros data Hw Ha.
    repeat split; intros Hr;
      unfold guid_read, serial_number_read, product_number_read;
      was_sent Hw; rewrite Hr; cbn [bind]; cbv iota beta;
      match goal with
      | |- context [(?a =? ?a) && opcode_is (Some ?k) ?k] =>
          change ((a =? a) && opcode_is (Some k) k) with true
      end;
      cbv iota; cbn [bind attr_decode]; cbv iota beta;
      rewrite (bytes_decode_ascii _ Ha); reflexivity.
Qed.

Lemma string_reads_return_only_success_witness :
  guid_read (answering MGI_RA "41424344") = Ret (ANS_STATUS_SUCCESS, "ABCD"%string).
Proof.
  apply (proj1 (proj2 (string_reads_return_only_success (answering MGI_RA "41424344"))
                  [x41; x42; x43; x44]
                  ltac:(intros frame; discriminate) eq_refl)).
  vm_compute; reflexivity.
Defined.

Lemma rtc_read_some_inv (e : env) (st t : Z) :
  rtc_read e = Ret (st, Some t) ->
  exists d0 d1 d2 d3,
    t = byte_to_Z d0 + byte_to_Z d1 * 2 ^ 8 + byte_to_Z d2 * 2 ^ 16
        + byte_to_Z d3 * 2 ^ 24 + ASTROCAST_REF_UNIX_TIME.
Proof.
  unfold rtc_read. intros H. cbv zeta in H.
  apply bind_ret_inv in H as (rv & _ & H).
  destruct (rv =? ANS_STATUS_DATA_SENT); [|discriminate H].
  apply bind_ret_inv in H as ([[rv' op] dat] & _ & H).
  destruct ((rv' =? ANS_STATUS_DATA_RECEIVED) && opcode_is op RTC_RA);
    [|discriminate H].
  destruct dat as [[|d0 [|d1 [|d2 [|d3 rest]]]]|];
    try (vm_compute in H; discriminate H).
  revert H. index 3 d3. index 2 d2. index 1 d1. index 0 d0. intros H.
  exists d0, d1, d2, d3.
  assert (Ht : t = Z.shiftl (byte_to_Z d3) 24 + Z.shiftl (byte_to_Z d2) 16
                   + Z.shiftl (byte_to_Z d1) 8 + Z.shiftl (byte_to_Z d0) 0
                   + ASTROCAST_REF_UNIX_TIME) by congruence.
  rewrite Ht, !Z.shiftl_mul_pow2 by lia. change (2 ^ 0) with 1. lia.
Qed.

(** X20. Every time [rtc_read] returns lies between the reference time
    1514764800 (2018-01-01T00:00:00Z) and 2 ^ 32 - 1 seconds after it. *)
Theorem rtc_read_time_range :
  forall (e : env) (st t : Z),
    rtc_read e = Ret (st, Some t) ->
    1514764800 <= t <= 1514764800 + (2 ^ 32 - 1).
Proof.
  intros e st t H.
  destruct (rtc_read_some_inv e st t H) as (d0 & d1 & d2 & d3 & ->).
  pose proof (byte_to_Z_range d0). pose proof (byte_to_Z_range d1).
  pose proof (byte_to_Z_range d2). pose proof (byte_to_Z_range d3).
  unfold ASTROCAST_REF_UNIX_TIME.
  change (2 ^ 8) with 256. change (2 ^ 16) with 65536.
  change (2 ^ 24) with 16777216. change (2 ^ 32) with 4294967296. lia.
Qed.

Lemma rtc_read_time_range_witness :
  rtc_read (answering RTC_RA "FFFFFFFF") = Ret (ANS_STATUS_SUCCESS, Some 5809732095)
  /\ 1514764800 <= 5809732095 <= 1514764800 + (2 ^ 32 - 1).
Proof.
  split; [vm_compute; reflexivity|].
  apply (rtc_read_time_range (answering RTC_RA "FFFFFFFF") ANS_STATUS_SUCCESS 5809732095).
  vm_compute; reflexivity.
Defined.

(** ** Sensitivity of the checksum *)

Lemma distinct_NoDup (l : list Z) : distinct l = true -> NoDup l.
Proof.
  induction l as [|x t IH]; intros H; [constructor|].
  cbn [distinct] in H. apply andb_true_iff in H as [Hx Ht].
  constructor; [|exact (IH Ht)].
  intros Hin. apply negb_true_iff in Hx.
  assert (E : existsb (Z.eqb x) t = true)
    by (apply existsb_exists; exists x; split; [exact Hin | apply Z.eqb_refl]).
  rewrite E in Hx. discriminate Hx.
Qed.

Lemma table_entries_distinct : NoDup table.
Proof. apply distinct_NoDup. vm_compute. reflexivity. Qed.

Lemma table_low_bytes_distinct : NoDup (map (fun t => Z.land t 255) table).
Proof. apply distinct_NoDup. vm_compute. reflexivity. Qed.

Lemma table_entry_range (i : nat) : 0 <= nth i table 0 < 65536.
Proof.
  destruct (Nat.lt_ge_cases i (List.length table)) as [H|H].
  - assert (F : forallb (fun t => (0 <=? t) && (t <? 65536)) table = true)
      by (vm_compute; reflexivity).
    rewrite forallb_forall in F.
    specialize (F _ (nth_In table 0 H)).
    apply andb_true_iff in F as [F1 F2].
    apply Z.leb_le in F1. apply Z.ltb_lt in F2. lia.
  - rewrite nth_overflow by exact H. lia.
Qed.

Lemma land_lxor_distr (a b c : Z) :
  Z.land (Z.lxor a b) c = Z.lxor (Z.land a c) (Z.land b c).
Proof.
  apply Z.bits_inj'. intros n Hn.
  rewrite Z.land_spec, !Z.lxor_spec, !Z.land_spec.
  destruct (Z.testbit a n), (Z.testbit b n), (Z.testbit c n); reflexivity.
Qed.

Lemma lxor_cancel_l (a b c : Z) : Z.lxor a b = Z.lxor a c -> b = c.
Proof.
  intros H.
  assert (E : forall x, x = Z.lxor a (Z.lxor a x))
    by (intros x; rewrite <- Z.lxor_assoc, Z.lxor_nilpotent, Z.lxor_0_l; reflexivity).
  rewrite (E b), (E c), H. reflexivity.
Qed.

(** The step written as an exclusive-or of the shifted low byte and the
    table entry. *)
Lemma crc16_step_split (crc : Z) (b : byte) :
  crc16_step crc b =
  Z.lxor (Z.land (Z.shiftl crc 8) 0xFFFF)
         (nth (Z.to_nat (Z.lxor (Z.shiftr crc 8) (byte_to_Z b))) table 0).
Proof.
  unfold crc16_step. rewrite land_lxor_distr. f_equal.
  change 0xFFFF with (Z.ones 16). rewrite Z.land_ones by lia.
  apply Z.mod_small. apply table_entry_range.
Qed.

Lemma crc_index_range (crc : Z) (b : byte) :
  0 <= crc < 65536 ->
  0 <= Z.lxor (Z.shiftr crc 8) (byte_to_Z b) < 256.
Proof.
  intros Hc. apply lxor_below_256; [|apply byte_to_Z_range].
  rewrite Z.shiftr_div_pow2 by lia. change (2 ^ 8) with 256.
  split; [apply Z.div_pos; lia | apply Z.div_lt_upper_bound; lia].
Qed.

Lemma crc16_step_inj_byte (crc : Z) (b1 b2 : byte) :
  0 <= crc < 65536 ->
  crc16_step crc b1 = crc16_step crc b2 -> b1 = b2.
Proof.
  intros Hc H. rewrite !crc16_step_split in H. apply lxor_cancel_l in H.
  pose proof (crc_index_range crc b1 Hc) as R1.
  pose proof (crc_index_range crc b2 Hc) as R2.
  apply (proj1 (NoDup_nth table 0) table_entries_distinct) in H;
    [| change (List.length table) with 256%nat; lia
     | change (List.length table) with 256%nat; lia].
  apply Z2Nat.inj in H; [|lia|lia].
  apply lxor_cancel_l in H. exact (byte_to_Z_inj _ _ H).
Qed.

Lemma shifted_low_byte (crc : Z) :
  Z.land (Z.shiftl crc 8) 0xFFFF = crc mod 256 * 256.
Proof.
  change 0xFFFF with (Z.ones 16). rewrite Z.land_ones, Z.shiftl_mul_pow2 by lia.
  change (2 ^ 16) with (256 * 256). change (2 ^ 8) with 256.
  apply Z.mul_mod_distr_r; lia.
Qed.

Lemma crc16_step_inj_crc (c1 c2 : Z) (b : byte) :
  0 <= c1 < 65536 -> 0 <= c2 < 65536 ->
  crc16_step c1 b = crc16_step c2 b -> c1 = c2.
Proof.
  intros H1 H2 H. rewrite !crc16_step_split, !shifted_low_byte in H.
  pose proof (crc_index_range c1 b H1) as R1.
  pose proof (crc_index_range c2 b H2) as R2.
  set (i1 := Z.to_nat (Z.lxor (Z.shiftr c1 8) (byte_to_Z b))) in *.
  set (i2 := Z.to_nat (Z.lxor (Z.shiftr c2 8) (byte_to_Z b))) in *.
  assert (Hlow : forall c i, Z.land (Z.lxor (c mod 256 * 256) (nth i table 0)) 255
                             = Z.land (nth i table 0) 255).
  { intros c i. rewrite land_lxor_distr.
    replace (Z.land (c mod 256 * 256) 255) with 0; [apply Z.lxor_0_l|].
    change 255 with (Z.ones 8). rewrite Z.land_ones by lia.
    change (2 ^ 8) with 256. symmetry. apply Z.mod_mul. lia. }
  assert (Hi : i1 = i2).
  { pose proof (f_equal (fun x => Z.land x 255) H) as L. cbv beta in L.
    rewrite !Hlow in L.
    apply (proj1 (NoDup_nth _ (Z.land 0 255)) table_low_bytes_distinct).
    - rewrite length_map. change (List.length table) with 256%nat. subst i1. lia.
    - rewrite length_map. change (List.length table) with 256%nat. subst i2. lia.
    - rewrite !(map_nth (fun t => Z.land t 255)). exact L. }
  rewrite Hi in H.
  assert (Hl : c1 mod 256 * 256 = c2 mod 256 * 256).
  { apply (lxor_cancel_l (nth i2 table 0)).
    rewrite !(Z.lxor_comm (nth i2 table 0)). exact H. }
  subst i1 i2. apply Z2Nat.inj in Hi; [|lia|lia].
  rewrite !(Z.lxor_comm _ (byte_to_Z b)) in Hi. apply lxor_cancel_l in Hi.
  rewrite !Z.shiftr_div_pow2 in Hi by lia. change (2 ^ 8) with 256 in Hi.
  pose proof (Z.div_mod c1 256 ltac:(lia)). pose proof (Z.div_mod c2 256 ltac:(lia)).
  lia.
Qed.

Lemma crc16_fold_range (data : list byte) (crc : Z) :
  0 <= crc < 65536 -> 0 <= fold_left crc16_step data crc < 65536.
Proof.
  revert crc. induction data as [|b data IH]; intros crc H; [exact H|].
  cbn [fold_left]. apply IH. apply crc16_step_range.
Qed.

Lemma crc16_fold_inj (data : list byte) (c1 c2 : Z) :
  0 <= c1 < 65536 -> 0 <= c2 < 65536 ->
  fold_left crc16_step data c1 = fold_left crc16_step data c2 -> c1 = c2.
Proof.
  revert c1 c2. induction data as [|b data IH]; intros c1 c2 H1 H2 H; [exact H|].
  cbn [fold_left] in H.
  apply IH in H; try apply crc16_step_range.
  exact (crc16_step_inj_crc c1 c2 b H1 H2 H).
Qed.

(** X22. Replacing one byte of the input, anywhere, by a different byte
    always changes the checksum: two inputs that differ in exactly one
    position never have the same CRC. *)
Theorem crc16_detects_byte_substitution :
  forall (pre post : list byte) (b1 b2 : byte),
    _crc16 (pre ++ b1 :: post) = _crc16 (pre ++ b2 :: post) -> b1 = b2.
Proof.
  intros pre post b1 b2 H. unfold _crc16 in H.
  rewrite !fold_left_app in H. cbn [fold_left] in H.
  pose proof (crc16_fold_range pre 0xFFFF ltac:(lia)) as Hp.
  apply crc16_fold_inj in H; try apply crc16_step_range.
  exact (crc16_step_inj_byte _ b1 b2 Hp H).
Qed.

Lemma crc16_detects_byte_substitution_witness :
  _crc16 (str_encode "1234" ++ "5"%byte :: str_encode "6789") = 0x29B1
  /\ "5"%byte = "5"%byte.
Proof.
  split; [vm_compute; reflexivity|].
  apply (crc16_detects_byte_substitution (str_encode "1234") (str_encode "6789")).
  reflexivity.
Defined.

(** ** A second STX, and the enqueue request on the wire *)

Lemma decode_answer_bad_body (x e : byte) (body crc : list byte) (ex : exn) :
  forallb is_ascii body = true ->
  forallb is_ascii crc = true ->
  List.length crc = 4%nat ->
  body <> [] ->
  unhexlify body = Raise ex ->
  decode_answer (x :: body ++ crc ++ [e]) = Raise ex.
Proof.
  intros Hb Hc Hl Hne Hu. unfold decode_answer.
  rewrite (len_framed x e body crc Hl).
  assert (Hlen : (6 <? len body + 6) = true).
  { apply Z.ltb_lt. destruct body; [contradiction|]. rewrite len_cons.
    pose proof (len_nonneg body). lia. }
  rewrite Hlen, (slice_message x e body crc Hl), (slice_crc_check x e body crc Hl).
  rewrite (bytes_decode_ascii _ Hb), (bytes_decode_ascii _ Hc). cbn [bind].
  rewrite str_encode_of_bytes, Hu. reflexivity.
Qed.

(** X21. A second STX does not restart the capture: when a started,
    unfinished message (STX and ASCII bytes without ETX) is followed by a
    complete, well-formed frame, the whole run is decoded as one frame
    and the call raises ValueError instead of returning a status. *)
Theorem second_stx_raises_value_error :
  forall (opcode : Z) (args : string) (raw junk : list byte)
         (rest : list (option byte)),
    0 <= opcode < 256 ->
    unhexlify (str_encode args) = Ret raw ->
    forallb is_ascii junk = true ->
    forallb not_etx junk = true ->
    exists frame,
      request_frame opcode (AStr args) = Ret frame
      /\ receive_decode_answer (map Some (x02 :: junk ++ frame) ++ rest) =
         Raise ValueError.
Proof.
  intros opcode args raw junk rest Ho Ha Hja Hje.
  destruct (request_body_upper opcode args raw Ho Ha) as (Hup & Hun & Hne).
  set (body := bytes_upper (str_encode (format_02X opcode ++ args))) in *.
  set (crc := crc_field (_crc16 (byte_of_Z opcode :: raw))).
  pose proof (crc_field_upper _ (crc16_range (byte_of_Z opcode :: raw))) as Hcu.
  fold crc in Hcu.
  assert (Hcl : List.length crc = 4%nat) by reflexivity.
  exists (x02 :: body ++ crc ++ [x03]).
  split; [exact (request_frame_value opcode args raw Ho Ha)|].
  unfold receive_decode_answer.
  replace (x02 :: junk ++ x02 :: body ++ crc ++ [x03])
    with (x02 :: ((junk ++ x02 :: body) ++ crc) ++ [x03])
    by (rewrite <- !app_assoc; reflexivity).
  rewrite capture_frame.
  2:{ apply forallb_app_true; [|exact (upper_xdigits_no_etx _ Hcu)].
      apply forallb_app_true; [exact Hje|].
      cbn [forallb]. rewrite (upper_xdigits_no_etx _ Hup). reflexivity. }
  rewrite <- app_assoc.
  apply decode_answer_bad_body.
  - apply forallb_app_true; [exact Hja|].
    cbn [forallb]. rewrite (upper_xdigits_ascii _ Hup). reflexivity.
  - exact (upper_xdigits_ascii _ Hcu).
  - exact Hcl.
  - destruct junk; discriminate.
  - apply unhexlify_non_xdigit. rewrite forallb_app. cbn [forallb].
    change (is_xdigit x02) with false. cbn [andb]. apply andb_false_r.
Qed.

Lemma second_stx_raises_value_error_witness :
  exists frame,
    request_frame RTC_RA (AStr "00000000") = Ret frame
    /\ receive_decode_answer
         (map Some (x02 :: ["9"; "7"; "0"]%byte ++ frame) ++ [None]) =
       Raise ValueError.
Proof.
  apply (second_stx_raises_value_error RTC_RA "00000000" [x00; x00; x00; x00]
           ["9"; "7"; "0"]%byte [None]);
    [unfold RTC_RA; lia | reflexivity | reflexivity | reflexivity].
Defined.

(** X23. The request [enqueue_payload] builds for a [str] identifier that
    spells the bytes [idb]: its frame decodes to opcode 0x25 (PLD_ER) and
    the payload [idb] followed by the data, the identifier bytes in the
    order they are written in the string. *)
Theorem enqueue_request_on_the_wire :
  forall (e : env) (payload : list byte) (s : string) (idb : list byte)
         (rest : list (option byte)),
    unhexlify (str_encode s) = Ret idb ->
    exists message frame,
      generate_message e payload true (Some (IdStr s)) = Ret (Some (IdStr s), message)
      /\ request_frame PLD_ER (AStr message) = Ret frame
      /\ receive_decode_answer (map Some frame ++ rest) =
         Ret (ANS_STATUS_DATA_RECEIVED, Some PLD_ER, Some (idb ++ payload)).
Proof.
  intros e payload s idb rest Hs.
  exists (s ++ string_of_list_byte (hexlify payload))%string.
  assert (Hm : unhexlify (str_encode (s ++ string_of_list_byte (hexlify payload)))
               = Ret (idb ++ payload)).
  { rewrite str_encode_app, str_encode_of_bytes.
    rewrite (unhexlify_app _ _ _ Hs), unhexlify_hexlify. reflexivity. }
  destruct (receive_request_frame PLD_ER _ _ rest ltac:(unfold PLD_ER; lia) Hm)
    as (frame & Hf & Hr).
  exists frame. split; [|split; [exact Hf | exact Hr]].
  unfold generate_message. cbn [bind]. rewrite text_to_hex_ok. reflexivity.
Qed.

Lemma enqueue_request_on_the_wire_witness :
  unhexlify (str_encode "1234") = Ret [x12; x34]
  /\ exists message frame,
      generate_message silent_modem [x41; x42] true (Some (IdStr "1234")) =
        Ret (Some (IdStr "1234"), message)
      /\ request_frame PLD_ER (AStr message) = Ret frame
      /\ receive_decode_answer (map Some frame ++ []) =
         Ret (ANS_STATUS_DATA_RECEIVED, Some PLD_ER, Some ([x12; x34] ++ [x41; x42])).
Proof.
  split; [reflexivity|].
  apply (enqueue_request_on_the_wire silent_modem [x41; x42] "1234" [x12; x34] []).
  reflexivity.
Defined.
